(** * Hyperliquid MCP server: the protocol adapter of [server/src/index.ts]

    A shallow embedding of the adapter (resource matching, tool dispatch,
    argument marshalling, bridge invocation and error mapping) and the
    properties its specification states about it. *)

From Stdlib Require Import String Ascii List ZArith Bool Arith Lia DecimalString.
Import ListNotations.
Open Scope list_scope.
Open Scope string_scope.

Set Warnings "-register-all".

(** ** Strings

    A JavaScript string is modelled by a Rocq [string]: ASCII text one byte per
    character, other text as its UTF-8 bytes. *)

Definition dq : string := String "034"%char EmptyString.
Definition nl : string := String "010"%char EmptyString.
Definition backslash : string := String "092"%char EmptyString.

Fixpoint join (sep : string) (l : list string) : string :=
  match l with
  | [] => EmptyString
  | x :: r => match r with [] => x | _ => x ++ sep ++ join sep r end
  end.

Fixpoint strip_prefix (p s : string) : option string :=
  match p with
  | EmptyString => Some s
  | String a p' =>
      match s with
      | String b s' => if Ascii.eqb a b then strip_prefix p' s' else None
      | EmptyString => None
      end
  end.

Fixpoint take (n : nat) (s : string) : string :=
  match n, s with
  | S k, String c r => String c (take k r)
  | _, _ => EmptyString
  end.

Fixpoint drop (n : nat) (s : string) : string :=
  match n, s with
  | S k, String _ r => drop k r
  | _, _ => s
  end.

Definition Z_to_string (z : Z) : string := NilZero.string_of_int (Z.to_int z).

(** ** JavaScript values

    [JNum n] is a number with an integer value (of magnitude below 10^21,
    so that its string form is its decimal digits); [JDec text] is a finite
    number that is not an integer,
    carried by the text JavaScript prints for it (0.1 is [JDec "0.1"]).
    An object is the list of its own properties in enumeration order. *)

Inductive JValue : Type :=
| JUndefined
| JNull
| JBool (b : bool)
| JNum (n : Z)
| JDec (text : string)
| JStr (s : string)
| JArr (items : list JValue)
| JObj (props : list (string * JValue)).

Definition Obj : Type := list (string * JValue).

(** Property read [o.key] on a plain object: [undefined] when there is none. *)
Fixpoint get (o : Obj) (key : string) : JValue :=
  match o with
  | [] => JUndefined
  | (k, v) :: r => if String.eqb k key then v else get r key
  end.

Definition keys (o : Obj) : list string := map fst o.

(** The object has an own property of that name. *)
Definition has_own (o : Obj) (key : string) : bool :=
  existsb (fun p => String.eqb (fst p) key) o.

(** [String(value)], also the conversion of a template literal; [None] is
    the TypeError of a value that has no primitive form. A plain object is
    converted by the inherited toString unless it has an own toString
    property, which (a JSON value) is not callable, and then the inherited
    valueOf gives back the object and the conversion throws. An array joins
    the conversions of its elements, [null] and [undefined] as empty text. *)
Fixpoint ToString (v : JValue) : option string :=
  match v with
  | JUndefined => Some "undefined"
  | JNull => Some "null"
  | JBool true => Some "true"
  | JBool false => Some "false"
  | JNum n => Some (Z_to_string n)
  | JDec text => Some text
  | JStr s => Some s
  | JArr items =>
      (fix elems (l : list JValue) : option string :=
         match l with
         | [] => Some EmptyString
         | x :: r =>
             match match x with
                   | JUndefined | JNull => Some EmptyString
                   | _ => ToString x
                   end with
             | None => None
             | Some first =>
                 match r with
                 | [] => Some first
                 | _ =>
                     match elems r with
                     | Some rest => Some (first ++ "," ++ rest)
                     | None => None
                     end
                 end
             end
         end) items
  | JObj props =>
      if has_own props "toString" then None else Some "[object Object]"
  end.

(** Truthiness, as tested by [if (v)], [v ? a : b] and [!v]. *)
Definition truthy (v : JValue) : bool :=
  match v with
  | JUndefined | JNull | JBool false => false
  | JNum 0 => false
  | JStr EmptyString => false
  | _ => true
  end.

(** ** JSON.stringify *)

Definition hex_digit (n : nat) : string :=
  String (nth n ["0"; "1"; "2"; "3"; "4"; "5"; "6"; "7"; "8"; "9";
                 "a"; "b"; "c"; "d"; "e"; "f"]%char "0"%char) EmptyString.

Definition quote_char (c : ascii) : string :=
  let n := nat_of_ascii c in
  if (n =? 34)%nat then backslash ++ dq
  else if (n =? 92)%nat then backslash ++ backslash
  else if (n =? 8)%nat then backslash ++ "b"
  else if (n =? 9)%nat then backslash ++ "t"
  else if (n =? 10)%nat then backslash ++ "n"
  else if (n =? 12)%nat then backslash ++ "f"
  else if (n =? 13)%nat then backslash ++ "r"
  else if (n <? 32)%nat then backslash ++ "u00" ++ hex_digit (n / 16) ++ hex_digit (n mod 16)
  else String c EmptyString.

Fixpoint quote_chars (s : string) : string :=
  match s with
  | EmptyString => EmptyString
  | String c r => quote_char c ++ quote_chars r
  end.

Definition Quote (s : string) : string := dq ++ quote_chars s ++ dq.

Definition is_empty (s : string) : bool :=
  match s with EmptyString => true | _ => false end.

(** The brackets around the serialized members of an array or an object. *)
Definition wrap (opening closing gap stepback indent : string)
    (partial : list string) : string :=
  match partial with
  | [] => opening ++ closing
  | _ =>
      if is_empty gap then opening ++ join "," partial ++ closing
      else opening ++ nl ++ indent ++ join ("," ++ nl ++ indent) partial
           ++ nl ++ stepback ++ closing
  end.

(** The serialization of a value at indentation [indent]; [None] is the
    [undefined] JSON.stringify gives for a value it does not serialize. *)
Fixpoint serialize (gap indent : string) (v : JValue) : option string :=
  match v with
  | JUndefined => None
  | JNull => Some "null"
  | JBool true => Some "true"
  | JBool false => Some "false"
  | JNum n => Some (Z_to_string n)
  | JDec text => Some text
  | JStr s => Some (Quote s)
  | JArr items =>
      let inner := indent ++ gap in
      Some (wrap "[" "]" gap indent inner
        ((fix elems (l : list JValue) : list string :=
            match l with
            | [] => []
            | x :: r =>
                match serialize gap inner x with
                | Some t => t
                | None => "null"
                end :: elems r
            end) items))
  | JObj props =>
      let inner := indent ++ gap in
      Some (wrap "{" "}" gap indent inner
        ((fix members (l : list (string * JValue)) : list string :=
            match l with
            | [] => []
            | (k, x) :: r =>
                match serialize gap inner x with
                | Some t =>
                    (Quote k ++ ":" ++ (if is_empty gap then EmptyString else " ") ++ t)
                    :: members r
                | None => members r
                end
            end) props))
  end.

(** [JSON.stringify(v)] and [JSON.stringify(v, null, 2)]. *)
Definition JSON_stringify (v : JValue) : option string :=
  serialize EmptyString EmptyString v.

Definition JSON_stringify_2 (v : JValue) : option string :=
  serialize "  " EmptyString v.

(** A value that is a string or [undefined], as a JavaScript value. *)
Definition of_text (t : option string) : JValue :=
  match t with Some s => JStr s | None => JUndefined end.

(** ** The argument marshaller (runBridgeScript, lines 45-48) *)

Definition is_upper (c : ascii) : bool :=
  let n := nat_of_ascii c in ((65 <=? n) && (n <=? 90))%nat.

Definition lower_char (c : ascii) : ascii :=
  if is_upper c then ascii_of_nat (nat_of_ascii c + 32) else c.

(** [key.replace(/([A-Z])/g, '-$1')] *)
Fixpoint hyphenate (key : string) : string :=
  match key with
  | EmptyString => EmptyString
  | String c r =>
      if is_upper c then String "-" (String c (hyphenate r))
      else String c (hyphenate r)
  end.

(** [toLowerCase()], on ASCII letters (every key the handlers pass is ASCII). *)
Fixpoint toLowerCase (s : string) : string :=
  match s with
  | EmptyString => EmptyString
  | String c r => String (lower_char c) (toLowerCase r)
  end.

Definition flag_name (key : string) : string :=
  "--" ++ toLowerCase (hyphenate key).

(** [toLowerCase()] above is JavaScript's on a string of ASCII characters;
    a statement about an arbitrary key assumes the key is one. *)
Fixpoint is_ascii (s : string) : bool :=
  match s with
  | EmptyString => true
  | String c r => (nat_of_ascii c <? 128)%nat && is_ascii r
  end.

(** The callback of [flatMap]: the words one entry adds to the command line;
    [None] when [String(value)] throws. *)
Definition flag_words (entry : string * JValue) : option (list string) :=
  let (key, value) := entry in
  match value with
  | JUndefined | JNull => Some []
  | _ =>
      match ToString value with
      | Some text => Some [flag_name key; text]
      | None => None
      end
  end.

(** The same entry as a (flag, value) pair, when it is marshalled at all. *)
Definition flag_pair (entry : string * JValue) : option (list (string * string)) :=
  let (key, value) := entry in
  match value with
  | JUndefined | JNull => Some []
  | _ =>
      match ToString value with
      | Some text => Some [(flag_name key, text)]
      | None => None
      end
  end.

(** [l.flatMap(f)] for a callback that may throw: the entries are visited in
    order and the first throw ends the visit. *)
Fixpoint flatMap {A B : Type} (f : A -> option (list B)) (l : list A)
  : option (list B) :=
  match l with
  | [] => Some []
  | x :: r =>
      match f x with
      | None => None
      | Some first =>
          match flatMap f r with
          | Some rest => Some (first ++ rest)%list
          | None => None
          end
      end
  end.

Definition toFlags (args : Obj) : option (list (string * string)) :=
  flatMap flag_pair args.

Definition flatten (flags : list (string * string)) : list string :=
  flat_map (fun p => [fst p; snd p]) flags.

(** ** Configuration (lines 24-31) *)

Record Env : Type := {
  HYPERLIQUID_SECRET_KEY : option string;
  HYPERLIQUID_ACCOUNT_ADDRESS : option string;
  HYPERLIQUID_NETWORK : option string
}.

Record Config : Type := {
  SECRET_KEY : string;
  ACCOUNT_ADDRESS : option string;
  NETWORK : string
}.

(** [None]: the module throws at load time and no server exists. *)
Definition load_config (env : Env) : option Config :=
  match HYPERLIQUID_SECRET_KEY env with
  | None | Some EmptyString => None
  | Some key =>
      Some {| SECRET_KEY := key;
              ACCOUNT_ADDRESS := HYPERLIQUID_ACCOUNT_ADDRESS env;
              NETWORK := match HYPERLIQUID_NETWORK env with
                         | None | Some EmptyString => "mainnet"
                         | Some n => n
                         end |}
  end.

(** [...(ACCOUNT_ADDRESS ? ['--account-address', ACCOUNT_ADDRESS] : [])] *)
Definition account_words (cfg : Config) : list string :=
  match ACCOUNT_ADDRESS cfg with
  | None | Some EmptyString => []
  | Some a => ["--account-address"; a]
  end.

Definition fixed_words (cfg : Config) : list string :=
  ["--secret-key"; SECRET_KEY cfg; "--network"; NETWORK cfg] ++ account_words cfg.

(** [options.args] of runBridgeScript; [None] when the callback of flatMap
    throws, which ends runBridgeScript before PythonShell.run is called. *)
Definition options_args (cfg : Config) (command : string) (args : Obj)
  : option (list string) :=
  match flatMap flag_words args with
  | Some words =>
      Some (command :: "--secret-key" :: SECRET_KEY cfg :: "--network" :: NETWORK cfg
            :: account_words cfg ++ words)
  | None => None
  end.

(** ** decodeURIComponent

    [None] is the URIError thrown on a malformed escape or on escaped octets
    that are not the UTF-8 encoding of a code point. *)

Definition hex_value (c : ascii) : option nat :=
  let n := nat_of_ascii c in
  if ((48 <=? n) && (n <=? 57))%nat then Some (n - 48)
  else if ((65 <=? n) && (n <=? 70))%nat then Some (n - 55)
  else if ((97 <=? n) && (n <=? 102))%nat then Some (n - 87)
  else None.

Inductive Unit8 : Type :=
| Plain (c : ascii)
| Escaped (b : nat).

(** The code units of the input, each [%XX] read as the octet it denotes. *)
Fixpoint unescape (s : string) : option (list Unit8) :=
  match s with
  | EmptyString => Some []
  | String c r =>
      if Ascii.eqb c "%" then
        match r with
        | String h1 (String h2 r') =>
            match hex_value h1, hex_value h2 with
            | Some a, Some b => option_map (cons (Escaped (16 * a + b))) (unescape r')
            | _, _ => None
            end
        | _ => None
        end
      else option_map (cons (Plain c)) (unescape r)
  end.

Definition between (lo b hi : nat) : bool := ((lo <=? b) && (b <=? hi))%nat.

(** The escaped octets must form UTF-8 sequences: [need] continuation octets
    are still owed, the next of them within [lo..hi]. *)
Fixpoint utf8_octets (need lo hi : nat) (l : list Unit8) : option string :=
  match l with
  | [] => match need with 0 => Some EmptyString | _ => None end
  | Plain c :: r =>
      match need with
      | 0 => option_map (String c) (utf8_octets 0 0 0 r)
      | _ => None
      end
  | Escaped b :: r =>
      let out := option_map (String (ascii_of_nat b)) in
      match need with
      | 0 =>
          if (b <? 128)%nat then out (utf8_octets 0 0 0 r)
          else if between 194 b 223 then out (utf8_octets 1 128 191 r)
          else if (b =? 224)%nat then out (utf8_octets 2 160 191 r)
          else if between 225 b 236 || between 238 b 239 then out (utf8_octets 2 128 191 r)
          else if (b =? 237)%nat then out (utf8_octets 2 128 159 r)
          else if (b =? 240)%nat then out (utf8_octets 3 144 191 r)
          else if between 241 b 243 then out (utf8_octets 3 128 191 r)
          else if (b =? 244)%nat then out (utf8_octets 3 128 143 r)
          else None
      | S k => if between lo b hi then out (utf8_octets k 128 191 r) else None
      end
  end.

Definition decodeURIComponent (s : string) : option string :=
  match unescape s with
  | Some l => utf8_octets 0 0 0 l
  | None => None
  end.

(** ** The anchored patterns of the read-resource handler

    A pattern [/^...$/] is a sequence of literal pieces and capturing groups
    [([^/]+)]; a group is greedy and gives back characters when the rest of
    the pattern does not match. *)

Inductive ReItem : Type :=
| Lit (s : string)
| Seg.

Fixpoint run_length (s : string) : nat :=
  match s with
  | EmptyString => 0
  | String c r => if Ascii.eqb c "/" then 0 else S (run_length r)
  end.

(** A group tries its longest run first, then shorter ones; [rest] matches
    what follows the group. *)
Fixpoint attempt (rest : string -> option (list string)) (s : string) (n : nat)
  : option (list string) :=
  match n with
  | 0 => None
  | S k =>
      match rest (drop n s) with
      | Some caps => Some (take n s :: caps)
      | None => attempt rest s k
      end
  end.

Fixpoint re_match (re : list ReItem) (s : string) : option (list string) :=
  match re with
  | [] => if is_empty s then Some [] else None
  | Lit l :: re' =>
      match strip_prefix l s with
      | Some s' => re_match re' s'
      | None => None
      end
  | Seg :: re' => attempt (re_match re') s (run_length s)
  end.

(** [/^hyperliquid:\/\/market\/l2-book\/([^/]+)$/] *)
Definition re_l2_book : list ReItem :=
  [Lit "hyperliquid://market/l2-book/"; Seg].

(** [/^hyperliquid:\/\/user\/([^/]+)\/state$/] *)
Definition re_user_state : list ReItem :=
  [Lit "hyperliquid://user/"; Seg; Lit "/state"].

(** [/^hyperliquid:\/\/user\/([^/]+)\/open-orders$/] *)
Definition re_open_orders : list ReItem :=
  [Lit "hyperliquid://user/"; Seg; Lit "/open-orders"].

(** The pattern the specification gives a URI template: every [{param}]
    placeholder is a group, the text between placeholders is literal. *)
Fixpoint template_scan (inside : bool) (literal tpl : string) : list ReItem :=
  let flush := if is_empty literal then [] else [Lit literal] in
  match tpl with
  | EmptyString => flush
  | String c r =>
      if inside then
        if Ascii.eqb c "}" then Seg :: template_scan false EmptyString r
        else template_scan true EmptyString r
      else if Ascii.eqb c "{" then flush ++ template_scan true EmptyString r
      else template_scan false (literal ++ String c EmptyString) r
  end.

Definition template_pattern (tpl : string) : list ReItem :=
  template_scan false EmptyString tpl.

(** A path segment: one or more characters, none of them [/]. *)
Definition is_segment (s : string) : bool :=
  negb (is_empty s) && (run_length s =? String.length s)%nat.

(** [m[1]] of a successful match. *)
Definition group1 (caps : list string) : string := nth 0 caps EmptyString.

(** ** Errors *)

Inductive ErrorCode : Type :=
| InvalidRequest
| MethodNotFound.

Definition code_number (c : ErrorCode) : Z :=
  match c with
  | InvalidRequest => -32600
  | MethodNotFound => -32601
  end.

Inductive ErrorClass : Type :=
| PlainError
| McpErrorClass (code : ErrorCode)
| URIError
| TypeError
| LibraryError.

(** What a [throw] carries: an Error object of some class with its message,
    or a primitive value that is not an Error, given by its string form.
    Everything thrown in this program is one or the other: the Errors the
    handlers construct, the TypeError and URIError of the language, and what
    PythonShell.run rejects with and JSON.parse throws. *)
Inductive Exn : Type :=
| Err (cls : ErrorClass) (message : string)
| Thrown (text : string).

(** [new McpError(code, message)]: the SDK's constructor builds the message
    of the Error from the code and the text. *)
Definition McpError (code : ErrorCode) (message : string) : Exn :=
  Err (McpErrorClass code)
      ("MCP error " ++ Z_to_string (code_number code) ++ ": " ++ message).

(** [error instanceof Error ? error.message : String(error)] *)
Definition error_text (error : Exn) : string :=
  match error with
  | Err _ message => message
  | Thrown text => text
  end.

Definition uri_malformed : Exn := Err URIError "URI malformed".

(** The TypeError of a conversion to a string that finds no primitive. *)
Definition not_primitive : Exn :=
  Err TypeError "Cannot convert object to primitive value".

Definition to_string (v : JValue) : Exn + string :=
  match ToString v with
  | Some text => inr text
  | None => inl not_primitive
  end.

(** ** Effects: a handler may throw, and spawns bridge processes

    The state is the list of the command lines spawned so far, oldest first. *)

Definition Trace : Type := list (list string).

Definition M (A : Type) : Type := Trace -> (Exn + A) * Trace.

Definition ret {A} (a : A) : M A := fun t => (inr a, t).

Definition throw {A} (e : Exn) : M A := fun t => (inl e, t).

Definition bind {A B} (m : M A) (f : A -> M B) : M B :=
  fun t =>
    match m t with
    | (inr a, t') => f a t'
    | (inl e, t') => (inl e, t')
    end.

Definition try_catch {A} (body : M A) (handler : Exn -> M A) : M A :=
  fun t =>
    match body t with
    | (inr a, t') => (inr a, t')
    | (inl e, t') => handler e t'
    end.

Definition lift {A} (r : Exn + A) : M A := fun t => (r, t).

Notation "x <- m ;; k" := (bind m (fun x => k))
  (at level 61, m at next level, right associativity).

(** The outcome of a handler started with nothing spawned yet. *)
Definition outcome {A} (m : M A) : Exn + A := fst (m []).
Definition spawned {A} (m : M A) : Trace := snd (m []).

(** ** The catalogs (lines 89-122 and 195-391) *)

Record ResourceDescriptor : Type := {
  uri : string;
  resource_name : string;
  resource_mimeType : string;
  resource_description : string
}.

Record ResourceTemplate : Type := {
  uriTemplate : string;
  template_name : string;
  template_mimeType : string;
  template_description : string
}.

Record Property : Type := {
  property_type : string;
  property_description : string;
  enum : option (list string)
}.

Record InputSchema : Type := {
  schema_type : string;
  properties : list (string * Property);
  required : list string;
  oneOf : option (list (list string))
}.

Record ToolDescriptor : Type := {
  name : string;
  description : string;
  inputSchema : InputSchema
}.

Definition resources : list ResourceDescriptor :=
  [ {| uri := "hyperliquid://market/all-mids";
       resource_name := "Current mid prices for all coins";
       resource_mimeType := "application/json";
       resource_description :=
         "Real-time mid prices for all actively traded coins on Hyperliquid" |} ].

Definition resourceTemplates : list ResourceTemplate :=
  [ {| uriTemplate := "hyperliquid://market/l2-book/{coin}";
       template_name := "L2 order book for a specific coin";
       template_mimeType := "application/json";
       template_description := "Order book data for a specific coin on Hyperliquid" |};
    {| uriTemplate := "hyperliquid://user/{address}/state";
       template_name := "User state for a specific address";
       template_mimeType := "application/json";
       template_description :=
         "Trading details about a user including positions, margin, and account value" |};
    {| uriTemplate := "hyperliquid://user/{address}/open-orders";
       template_name := "Open orders for a specific address";
       template_mimeType := "application/json";
       template_description := "List of open orders for a specific user" |} ].

Definition prop (ty text : string) : Property :=
  {| property_type := ty; property_description := text; enum := None |}.

Definition prop_enum (ty text : string) (values : list string) : Property :=
  {| property_type := ty; property_description := text; enum := Some values |}.

Definition schema (props : list (string * Property)) (req : list string) : InputSchema :=
  {| schema_type := "object"; properties := props; required := req; oneOf := None |}.

Definition get_market_data_tool : ToolDescriptor :=
  {| name := "get_market_data";
     description := "Get market data from Hyperliquid";
     inputSchema := schema
       [ ("dataType", prop_enum "string" "Type of market data to retrieve"
            ["all_mids"; "l2_snapshot"; "meta"; "meta_and_asset_ctxs"; "spot_meta";
             "spot_meta_and_asset_ctxs"; "candles"; "funding_history"]);
         ("coin", prop "string"
            "Coin symbol (required for l2_snapshot, candles, funding_history)");
         ("interval", prop "string" "Candle interval (required for candles)");
         ("startTime", prop "integer"
            "Start time in milliseconds (required for candles, funding_history)");
         ("endTime", prop "integer"
            "End time in milliseconds (optional for candles, funding_history)") ]
       ["dataType"] |}.

Definition get_user_data_tool : ToolDescriptor :=
  {| name := "get_user_data";
     description := "Get user-specific data from Hyperliquid";
     inputSchema := schema
       [ ("dataType", prop_enum "string" "Type of user data to retrieve"
            ["user_state"; "spot_user_state"; "open_orders"; "frontend_open_orders";
             "user_fills"; "user_fills_by_time"; "user_funding_history"; "user_fees";
             "user_staking_summary"; "user_staking_delegations";
             "user_staking_rewards"; "query_sub_accounts"]);
         ("startTime", prop "integer"
            "Start time in milliseconds (required for user_fills_by_time, user_funding_history)");
         ("endTime", prop "integer"
            "End time in milliseconds (optional for user_fills_by_time, user_funding_history)") ]
       ["dataType"] |}.

Definition place_limit_order_tool : ToolDescriptor :=
  {| name := "place_limit_order";
     description := "Place a limit order on Hyperliquid";
     inputSchema := schema
       [ ("coin", prop "string" "Coin symbol");
         ("isBuy", prop "boolean" "Whether the order is a buy");
         ("size", prop "number" "Order size");
         ("price", prop "number" "Order price");
         ("timeInForce", prop_enum "string" "Time in force" ["Gtc"; "Ioc"; "Alo"]);
         ("reduceOnly", prop "boolean" "Whether the order is reduce-only");
         ("clientOrderId", prop "string" "Client order ID") ]
       ["coin"; "isBuy"; "size"; "price"; "timeInForce"] |}.

Definition place_market_order_tool : ToolDescriptor :=
  {| name := "place_market_order";
     description := "Place a market order on Hyperliquid";
     inputSchema := schema
       [ ("coin", prop "string" "Coin symbol");
         ("isBuy", prop "boolean" "Whether the order is a buy");
         ("size", prop "number" "Order size");
         ("slippage", prop "number" "Slippage tolerance (default: 0.05)");
         ("clientOrderId", prop "string" "Client order ID") ]
       ["coin"; "isBuy"; "size"] |}.

Definition cancel_order_tool : ToolDescriptor :=
  {| name := "cancel_order";
     description := "Cancel an order on Hyperliquid";
     inputSchema :=
       {| schema_type := "object";
          properties :=
            [ ("coin", prop "string" "Coin symbol");
              ("orderId", prop "integer" "Order ID");
              ("clientOrderId", prop "string" "Client order ID") ];
          required := ["coin"];
          oneOf := Some [["orderId"]; ["clientOrderId"]] |} |}.

Definition update_leverage_tool : ToolDescriptor :=
  {| name := "update_leverage";
     description := "Update leverage for a coin";
     inputSchema := schema
       [ ("coin", prop "string" "Coin symbol");
         ("leverage", prop "integer" "Leverage value");
         ("isCross", prop "boolean" "Whether to use cross margin (default: true)") ]
       ["coin"; "leverage"] |}.

Definition tools : list ToolDescriptor :=
  [ get_market_data_tool; get_user_data_tool; place_limit_order_tool;
    place_market_order_tool; cancel_order_tool; update_leverage_tool ].

Definition mem (x : string) (l : list string) : bool := existsb (String.eqb x) l.

Definition find_tool (tool : string) : option ToolDescriptor :=
  find (fun d => String.eqb (name d) tool) tools.

(** A field the schema of [d] declares and does not list as required. *)
Definition optional_field (d : ToolDescriptor) (field : string) : bool :=
  mem field (map fst (properties (inputSchema d)))
  && negb (mem field (required (inputSchema d))).

(** ** Tool dispatch (the switch of lines 399-469)

    Each case throws when the request has no arguments object and otherwise
    calls runBridgeScript once, with a command and an object literal; the
    default case throws. [dispatch] is that command and that object. *)

Definition is_undefined (v : JValue) : bool :=
  match v with JUndefined => true | _ => false end.

(** [v ? 'true' : 'false'] *)
Definition true_false (v : JValue) : JValue :=
  JStr (if truthy v then "true" else "false").

Definition arguments_required : Exn := Err PlainError "Arguments are required".

Definition with_args (args : option Obj) (k : Obj -> string * Obj)
  : Exn + (string * Obj) :=
  match args with
  | None => inl arguments_required
  | Some a => inr (k a)
  end.

Definition dispatch (tool : string) (args : option Obj) : Exn + (string * Obj) :=
  if String.eqb tool "get_market_data" then
    with_args args (fun args =>
      ("market-data",
       [ ("dataType", get args "dataType");
         ("coin", get args "coin");
         ("interval", get args "interval");
         ("startTime", get args "startTime");
         ("endTime", get args "endTime") ]))
  else if String.eqb tool "get_user_data" then
    with_args args (fun args =>
      ("user-data",
       [ ("dataType", get args "dataType");
         ("startTime", get args "startTime");
         ("endTime", get args "endTime") ]))
  else if String.eqb tool "place_limit_order" then
    with_args args (fun args =>
      let orderType :=
        of_text (JSON_stringify
                   (JObj [("limit", JObj [("tif", get args "timeInForce")])])) in
      ("place-order",
       [ ("coin", get args "coin");
         ("isBuy", true_false (get args "isBuy"));
         ("size", get args "size");
         ("price", get args "price");
         ("orderType", orderType);
         ("reduceOnly", true_false (get args "reduceOnly"));
         ("cloid", get args "clientOrderId") ]))
  else if String.eqb tool "place_market_order" then
    with_args args (fun args =>
      ("market-order",
       [ ("coin", get args "coin");
         ("isBuy", true_false (get args "isBuy"));
         ("size", get args "size");
         ("slippage", get args "slippage");
         ("cloid", get args "clientOrderId") ]))
  else if String.eqb tool "cancel_order" then
    with_args args (fun args =>
      ("cancel-order",
       [ ("coin", get args "coin");
         ("oid", get args "orderId");
         ("cloid", get args "clientOrderId") ]))
  else if String.eqb tool "update_leverage" then
    with_args args (fun args =>
      ("update-leverage",
       [ ("coin", get args "coin");
         ("leverage", get args "leverage");
         ("isCross",
          if is_undefined (get args "isCross") then JStr "true"
          else true_false (get args "isCross")) ]))
  else inl (McpError MethodNotFound ("Unknown tool: " ++ tool)).

(** The key of the object literal under which [dispatch] passes an optional
    schema field to the bridge. *)
Definition bridge_key (field : string) : string :=
  if String.eqb field "clientOrderId" then "cloid"
  else if String.eqb field "orderId" then "oid"
  else field.

(** ** Resource matching (lines 129, 143-145, 159-161, 175-177, 190)

    The branch the read-resource handler takes for a URI, with the constant
    ([coin], [address]) the branch binds; a throw otherwise. *)

Inductive ResourceMatch : Type :=
| AllMids
| L2Book (coin : string)
| UserState (address : string)
| OpenOrders (address : string).

Definition decoded {A} (k : string -> A) (segment : string) : Exn + A :=
  match decodeURIComponent segment with
  | Some text => inr (k text)
  | None => inl uri_malformed
  end.

Definition match_uri (u : string) : Exn + ResourceMatch :=
  if String.eqb u "hyperliquid://market/all-mids" then inr AllMids
  else
    match re_match re_l2_book u with
    | Some l2BookMatch => decoded L2Book (group1 l2BookMatch)
    | None =>
        match re_match re_user_state u with
        | Some userStateMatch => decoded UserState (group1 userStateMatch)
        | None =>
            match re_match re_open_orders u with
            | Some openOrdersMatch => decoded OpenOrders (group1 openOrdersMatch)
            | None => inl (McpError InvalidRequest ("Invalid URI format: " ++ u))
            end
        end
    end.

(** The command and the object literal each branch passes to runBridgeScript. *)
Definition resource_call (m : ResourceMatch) : string * Obj :=
  match m with
  | AllMids => ("market-data", [("dataType", JStr "all_mids")])
  | L2Book coin => ("market-data", [("dataType", JStr "l2_snapshot"); ("coin", JStr coin)])
  | UserState _ => ("user-data", [("dataType", JStr "user_state")])
  | OpenOrders _ => ("user-data", [("dataType", JStr "open_orders")])
  end.

(** ** The server

    The bridge process and the JSON parser are outside the adapter:
    [PythonShell_run argv] is what [PythonShell.run] settles to for a command
    line (the lines of standard output, or a rejection), and [JSON_parse] is
    [JSON.parse] applied to [result[0]], a line or [undefined]. *)

Record ResourceContents : Type := {
  contents_uri : string;
  contents_mimeType : string;
  contents_text : option string
}.

Record TextContent : Type := {
  content_type : string;
  text : option string
}.

(** [isError] is [None] when the response has no such key. *)
Record ToolResult : Type := {
  content : list TextContent;
  isError : option bool
}.

Section Server.

Variable cfg : Config.
Variable PythonShell_run : list string -> Exn + list string.
Variable JSON_parse : option string -> Exn + JValue.

(** [PythonShell.run(BRIDGE_SCRIPT_PATH, options)] *)
Definition run_python (argv : list string) : M (list string) :=
  fun t => (PythonShell_run argv, (t ++ [argv])%list).

(** The options are built before the try block: a throw of the marshalling
    leaves runBridgeScript at once. *)
Definition runBridgeScript (command : string) (args : Obj) : M JValue :=
  match options_args cfg command args with
  | None => throw not_primitive
  | Some argv =>
      try_catch
        (result <- run_python argv ;;
         lift (JSON_parse (nth_error result 0)))
        (fun error => throw error)
  end.

(** What the bridge gives back for a command line: the first line of its
    output parsed, or the failure of the process or of the parser. *)
Definition bridge_result (argv : list string) : Exn + JValue :=
  match PythonShell_run argv with
  | inl e => inl e
  | inr lines => JSON_parse (nth_error lines 0)
  end.

Definition ListResources : M (list ResourceDescriptor) := ret resources.

Definition ListResourceTemplates : M (list ResourceTemplate) := ret resourceTemplates.

Definition ListTools : M (list ToolDescriptor) := ret tools.

Definition ReadResource (u : string) : M (list ResourceContents) :=
  m <- lift (match_uri u) ;;
  data <- runBridgeScript (fst (resource_call m)) (snd (resource_call m)) ;;
  ret [ {| contents_uri := u;
           contents_mimeType := "application/json";
           contents_text := JSON_stringify_2 data |} ].

(** [result.error]: reading a property of [null] or [undefined] throws. *)
Definition read_error (result : JValue) : Exn + JValue :=
  match result with
  | JNull => inl (Err TypeError "Cannot read properties of null (reading 'error')")
  | JUndefined =>
      inl (Err TypeError "Cannot read properties of undefined (reading 'error')")
  | JObj props => inr (get props "error")
  | _ => inr JUndefined
  end.

Definition text_result (t : option string) (flag : option bool) : ToolResult :=
  {| content := [ {| content_type := "text"; text := t |} ]; isError := flag |}.

Definition CallTool (tool : string) (args : option Obj) : M ToolResult :=
  try_catch
    (call <- lift (dispatch tool args) ;;
     result <- runBridgeScript (fst call) (snd call) ;;
     error <- lift (read_error result) ;;
     if truthy error
     then (message <- lift (to_string error) ;;
           ret (text_result (Some ("Error: " ++ message)) (Some true)))
     else ret (text_result (JSON_stringify_2 result) None))
    (fun error =>
       ret (text_result
              (Some ("Error executing tool " ++ tool ++ ": " ++ error_text error))
              (Some true))).

(** The first two steps of the call-tool handler: dispatch, then the bridge. *)
Definition invoke (tool : string) (args : option Obj) : M JValue :=
  call <- lift (dispatch tool args) ;;
  runBridgeScript (fst call) (snd call).

(** The command line of a user-data read: nothing of the URI is in it. *)
Definition user_data_argv (dataType : string) : list string :=
  "user-data" :: fixed_words cfg ++ ["--data-type"; dataType].

End Server.

(** A configuration and a bridge to run the handlers on: no account address,
    a bridge that prints one line, a parser that reads it as [{"status":"ok"}]. *)
Definition sample_config : Config :=
  {| SECRET_KEY := "0xkey"; ACCOUNT_ADDRESS := None; NETWORK := "mainnet" |}.

Definition sample_run (argv : list string) : Exn + list string :=
  inr ["{" ++ dq ++ "status" ++ dq ++ ":" ++ dq ++ "ok" ++ dq ++ "}"].

Definition sample_parse (line : option string) : Exn + JValue :=
  inr (JObj [("status", JStr "ok")]).

(** The (flag, value) pairs a tool call marshals; [None] when dispatch or
    the marshalling throws. *)
Definition call_flags (tool : string) (args : option Obj)
  : option (list (string * string)) :=
  match dispatch tool args with
  | inr call => toFlags (snd call)
  | inl _ => None
  end.

(** ** Vocabulary of the statements *)

(** A value the marshaller emits: neither [undefined] nor [null]. *)
Definition defined (v : JValue) : bool :=
  match v with JUndefined | JNull => false | _ => true end.

(** Where a run of non-slash characters stops. *)
Definition stops (tail : string) : bool :=
  match tail with
  | EmptyString => true
  | String c _ => Ascii.eqb c "/"
  end.

(** What follows a group cannot start inside a run: it is the end of the
    input or a literal that begins with a slash. *)
Definition guarded (re : list ReItem) : Prop :=
  forall c r, Ascii.eqb c "/" = false -> re_match re (String c r) = None.

(** No character of the string is a percent sign. *)
Fixpoint no_percent (s : string) : bool :=
  match s with
  | EmptyString => true
  | String c r => negb (Ascii.eqb c "%") && no_percent r
  end.

(** The URIs of the two user templates. *)
Definition user_state_uri (address : string) : string :=
  "hyperliquid://user/" ++ address ++ "/state".

Definition open_orders_uri (address : string) : string :=
  "hyperliquid://user/" ++ address ++ "/open-orders".

(** The text a read returns, when it returns. *)
Definition texts (r : Exn + list ResourceContents) : Exn + list (option string) :=
  match r with
  | inl e => inl e
  | inr contents => inr (map contents_text contents)
  end.

(** Lower-case words and their capitalised forms. *)
Definition is_lower (c : ascii) : bool :=
  let n := nat_of_ascii c in ((97 <=? n) && (n <=? 122))%nat.

Definition upper_char (c : ascii) : ascii :=
  if is_lower c then ascii_of_nat (nat_of_ascii c - 32) else c.







(** A bridge whose output parses to an object with an empty [error] string,
    and one whose output parses to an object with a [null] error. *)
Definition empty_error_parse (line : option string) : Exn + JValue :=
  inr (JObj [("error", JStr EmptyString)]).

Definition null_error_parse (line : option string) : Exn + JValue :=
  inr (JObj [("status", JStr "ok"); ("error", JNull)]).

(** The arguments of the limit order of the specification's example. *)
Definition limit_order_args : Obj :=
  [ ("coin", JStr "BTC"); ("isBuy", JBool true); ("size", JDec "0.1");
    ("price", JNum 50000); ("timeInForce", JStr "Gtc") ].

(** The JSON text of the sample bridge result, indented by two spaces. *)
Definition status_ok_text : string :=
  "{" ++ nl ++ "  " ++ dq ++ "status" ++ dq ++ ": " ++ dq ++ "ok" ++ dq ++ nl ++ "}".

(** The call-specific words of a resource read: the values are strings the
    handler wrote or decoded. *)
Definition resource_words (m : ResourceMatch) : list string :=
  match m with
  | AllMids => ["--data-type"; "all_mids"]
  | L2Book coin => ["--data-type"; "l2_snapshot"; "--coin"; coin]
  | UserState _ => ["--data-type"; "user_state"]
  | OpenOrders _ => ["--data-type"; "open_orders"]
  end.

Definition resource_argv (cfg : Config) (m : ResourceMatch) : list string :=
  fst (resource_call m) :: fixed_words cfg ++ resource_words m.

(** Every value of the object has a string form. *)
Definition convertible (o : Obj) : bool :=
  forallb (fun p => match ToString (snd p) with Some _ => true | None => false end) o.

(** ** The settings writer (scripts/configure-mcp.js)

    The script touches one file, the MCP settings file of the platform, and
    the directory that holds it. *)

(** [o.key = value] on a plain object: an own property keeps its place, a new
    one goes last. *)
Fixpoint set (o : Obj) (key : string) (value : JValue) : Obj :=
  match o with
  | [] => [(key, value)]
  | (k, v) :: r =>
      if String.eqb k key then (k, value) :: r else (k, v) :: set r key value
  end.

(** [a || b] *)
Definition js_or (a b : JValue) : JValue := if truthy a then a else b.

(** [process.env.NAME]: a string or [undefined]. *)
Definition env_value (v : option string) : JValue :=
  match v with Some s => JStr s | None => JUndefined end.

(** The object assigned to [mcpSettings.mcpServers.hyperliquid] (lines 57-67). *)
Definition hyperliquid_entry (serverPath : string)
    (secretKey accountAddress network : JValue) : JValue :=
  JObj [ ("command", JStr "node");
         ("args", JArr [JStr serverPath]);
         ("env", JObj [ ("HYPERLIQUID_SECRET_KEY", secretKey);
                        ("HYPERLIQUID_ACCOUNT_ADDRESS", js_or accountAddress (JStr EmptyString));
                        ("HYPERLIQUID_NETWORK", network) ]);
         ("disabled", JBool false);
         ("alwaysAllow", JArr []) ].

(** Lines 56-67 on the settings read from the file, as JSON.stringify will see
    them afterwards; [None] is an uncaught TypeError. Reading a property of
    [null] throws, and so does creating a property on a number, a string or a
    boolean (the script is a module, hence strict); a property put on an
    array is not an element and is not serialized. *)
Definition register (mcpSettings entry : JValue) : option JValue :=
  match mcpSettings with
  | JObj props =>
      match js_or (get props "mcpServers") (JObj []) with
      | JObj servers =>
          Some (JObj (set props "mcpServers" (JObj (set servers "hyperliquid" entry))))
      | JArr items => Some (JObj (set props "mcpServers" (JArr items)))
      | _ => None
      end
  | JArr items => Some (JArr items)
  | _ => None
  end.

(** The settings file before the script runs. *)
Inductive FileState : Type :=
| NoDirectory (creatable : bool)
| Missing
| Unreadable
| Content (text : string).

Inductive Exit : Type :=
| Exit0
| Exit1
| Uncaught.

(** How a run ends, and the text it passed to writeFileSync, if it got there. *)
Record ScriptRun : Type := {
  exit : Exit;
  write : option string
}.

Section Configure.

Variable JSON_parse : option string -> Exn + JValue.
Variable serverPath : string.

(** Lines 45-54: a file that is missing, cannot be read or does not parse
    leaves the initial settings. *)
Definition read_settings (file : FileState) : JValue :=
  let mcpSettings := JObj [("mcpServers", JObj [])] in
  match file with
  | Content text =>
      match JSON_parse (Some text) with
      | inr parsed => parsed
      | inl _ => mcpSettings
      end
  | _ => mcpSettings
  end.

Definition script_entry (env : Env) : JValue :=
  hyperliquid_entry serverPath
    (env_value (HYPERLIQUID_SECRET_KEY env))
    (env_value (HYPERLIQUID_ACCOUNT_ADDRESS env))
    (js_or (env_value (HYPERLIQUID_NETWORK env)) (JStr "mainnet")).

(** The script, on [process.env] as it is once dotenv has loaded the .env
    file, the settings file as it stands, and whether the write succeeds. *)
Definition configure_mcp (env : Env) (file : FileState) (write_ok : bool) : ScriptRun :=
  if negb (truthy (env_value (HYPERLIQUID_SECRET_KEY env)))
  then {| exit := Exit1; write := None |}
  else
    match file with
    | NoDirectory false => {| exit := Uncaught; write := None |}
    | _ =>
        match register (read_settings file) (script_entry env) with
        | None => {| exit := Uncaught; write := None |}
        | Some mcpSettings =>
            {| exit := if write_ok then Exit0 else Exit1;
               write := JSON_stringify_2 mcpSettings |}
        end
    end.

End Configure.

(** The environment a host gives the server it launches from a settings
    entry: each variable of the entry's [env] block that holds a string. *)
Definition launch_env (entry : JValue) : Env :=
  let block := match entry with
               | JObj props => match get props "env" with JObj b => b | _ => [] end
               | _ => []
               end in
  let variable name := match get block name with JStr s => Some s | _ => None end in
  {| HYPERLIQUID_SECRET_KEY := variable "HYPERLIQUID_SECRET_KEY";
     HYPERLIQUID_ACCOUNT_ADDRESS := variable "HYPERLIQUID_ACCOUNT_ADDRESS";
     HYPERLIQUID_NETWORK := variable "HYPERLIQUID_NETWORK" |}.

(** ** The dashboard server (server.js, POST /api/authenticate) *)

Record Response : Type := {
  status : Z;
  body : JValue
}.

(** What a request did: the text passed to writeFileSync for the .env file,
    whether the configuration script was spawned, and the response the
    handler sent ([None] when the template literal or the write threw and
    the handler sent none). *)
Record AuthRun : Type := {
  env_file : option string;
  script_spawned : bool;
  response : option Response
}.

(** The template literal of lines 39-42; [None] when the conversion of one
    of the three values throws. *)
Definition envContent (secretKey accountAddress network : JValue) : option string :=
  match ToString secretKey,
        ToString (js_or accountAddress (JStr EmptyString)),
        ToString (js_or network (JStr "mainnet")) with
  | Some key, Some address, Some net =>
      Some ("HYPERLIQUID_SECRET_KEY=" ++ key ++ nl
            ++ "HYPERLIQUID_ACCOUNT_ADDRESS=" ++ address ++ nl
            ++ "HYPERLIQUID_NETWORK=" ++ net ++ nl)
  | _, _, _ => None
  end.

(** The handler on the JSON object of a request, given whether the write of
    the .env file succeeds and the code the configuration script, once
    started, closes with ([None] when a signal ended it). *)
Definition authenticate (request_body : Obj) (write_ok : bool) (code : option Z)
  : AuthRun :=
  let secretKey := get request_body "secretKey" in
  let accountAddress := get request_body "accountAddress" in
  let network := get request_body "network" in
  if negb (truthy secretKey) then
    {| env_file := None;
       script_spawned := false;
       response := Some {| status := 400;
                           body := JObj [("error", JStr "Secret key is required")] |} |}
  else
    match envContent secretKey accountAddress network with
    | None => {| env_file := None; script_spawned := false; response := None |}
    | Some text =>
        if negb write_ok then
          {| env_file := Some text; script_spawned := false; response := None |}
        else
          {| env_file := Some text;
             script_spawned := true;
             response :=
               Some match code with
                    | Some 0%Z =>
                        {| status := 200;
                           body := JObj [ ("success", JBool true);
                                          ("message", JStr "Authentication successful") ] |}
                    | _ =>
                        {| status := 500;
                           body := JObj [("error", JStr "Failed to configure MCP server")] |}
                    end |}
    end.

(** ** More vocabulary of the statements *)

(** No character of the name is a hyphen. *)
Fixpoint hyphen_free (key : string) : bool :=
  match key with
  | EmptyString => true
  | String c r => negb (Ascii.eqb c "-") && hyphen_free r
  end.

(** A hyphen and the letter after it, read back as the capital letter. *)
Fixpoint unhyphenate (s : string) : string :=
  match s with
  | EmptyString => EmptyString
  | String c r =>
      if Ascii.eqb c "-" then
        match r with
        | String d r' => String (upper_char d) (unhyphenate r')
        | EmptyString => String c EmptyString
        end
      else String c (unhyphenate r)
  end.

(** The six commands of the bridge. *)
Definition commands : list string :=
  ["market-data"; "user-data"; "place-order"; "market-order"; "cancel-order";
   "update-leverage"].

(** The settings hold the entry under [mcpServers.hyperliquid]. *)
Definition registered (mcpSettings entry : JValue) : Prop :=
  exists props servers,
    mcpSettings = JObj props
    /\ get props "mcpServers" = JObj servers
    /\ get servers "hyperliquid" = entry.

(** No character of the string is a line feed. *)
Fixpoint one_line (s : string) : bool :=
  match s with
  | EmptyString => true
  | String c r => negb (Ascii.eqb c "010") && one_line r
  end.

(** The lines of a text, split at each line feed. *)
Fixpoint split_lines (s : string) : list string :=
  match s with
  | EmptyString => [EmptyString]
  | String c r =>
      if Ascii.eqb c "010" then EmptyString :: split_lines r
      else match split_lines r with
           | [] => [String c EmptyString]
           | l :: ls => String c l :: ls
           end
  end.

(** The text of [v ? 'true' : 'false']. *)
Definition true_false_text (v : JValue) : string :=
  if truthy v then "true" else "false".

(** The text of the order-type flag for a time in force. *)
Definition order_type_text (timeInForce : JValue) : string :=
  "{" ++ dq ++ "limit" ++ dq ++ ":"
  ++ match JSON_stringify timeInForce with
     | Some tif => "{" ++ dq ++ "tif" ++ dq ++ ":" ++ tif ++ "}"
     | None => "{}"
     end ++ "}".

(** What the adapter reads of the bridge's output: its failure, or the first
    line, if there is one. *)
Definition first_line (r : Exn + list string) : Exn + option string :=
  match r with
  | inl e => inl e
  | inr lines => inr (nth_error lines 0)
  end.

(** The tool call that asks the bridge for what a resource read asks for. *)
Definition as_tool_call (m : ResourceMatch) : string * Obj :=
  match m with
  | AllMids => ("get_market_data", [("dataType", JStr "all_mids")])
  | L2Book coin =>
      ("get_market_data", [("dataType", JStr "l2_snapshot"); ("coin", JStr coin)])
  | UserState _ => ("get_user_data", [("dataType", JStr "user_state")])
  | OpenOrders _ => ("get_user_data", [("dataType", JStr "open_orders")])
  end.

(** * Properties *)

(** ** Marshalling *)

Lemma flatten_app (a b : list (string * string)) :
  flatten (a ++ b) = (flatten a ++ flatten b)%list.
Proof. unfold flatten. apply flat_map_app. Qed.

Lemma flag_words_pair (entry : string * JValue) :
  flag_words entry = option_map flatten (flag_pair entry).
Proof.
  destruct entry as [key value]. unfold flag_words, flag_pair.
  destruct value; try reflexivity;
    match goal with
    | |- context [ToString ?v] => destruct (ToString v); reflexivity
    end.
Qed.

Lemma flatMap_flag_words (args : Obj) :
  flatMap flag_words args = option_map flatten (toFlags args).
Proof.
  unfold toFlags. induction args as [|entry rest IH]; [reflexivity|].
  cbn [flatMap]. rewrite flag_words_pair, IH.
  destruct (flag_pair entry) as [first|]; [|reflexivity].
  destruct (flatMap flag_pair rest) as [others|]; [|reflexivity].
  cbn [option_map]. rewrite flatten_app. reflexivity.
Qed.

Lemma options_args_shape (cfg : Config) (command : string) (args : Obj) :
  options_args cfg command args
  = option_map (fun flags => command :: fixed_words cfg ++ flatten flags)
      (toFlags args).
Proof.
  unfold options_args, fixed_words. rewrite flatMap_flag_words.
  destruct (toFlags args); reflexivity.
Qed.

Lemma flag_pair_defined (key : string) (value : JValue) :
  flag_pair (key, value)
  = if defined value
    then option_map (fun text => [(flag_name key, text)]) (ToString value)
    else Some [].
Proof.
  unfold flag_pair. destruct value; try reflexivity;
    match goal with
    | |- context [ToString ?v] => destruct (ToString v); reflexivity
    end.
Qed.

(** The pairs of a marshalled object are those of its defined entries. *)
Lemma toFlags_In (fields : Obj) (flags : list (string * string))
    (flag value : string) :
  toFlags fields = Some flags ->
  (In (flag, value) flags
   <-> exists key v,
         In (key, v) fields /\ defined v = true
         /\ flag = flag_name key /\ ToString v = Some value).
Proof.
  unfold toFlags. revert flags.
  induction fields as [|[key v] rest IH]; intros flags Hflags.
  - inversion Hflags. split; [intros []|intros (k & x & [] & _)].
  - cbn [flatMap] in Hflags. rewrite flag_pair_defined in Hflags.
    destruct (defined v) eqn:Hdef.
    + destruct (ToString v) as [text|] eqn:Htext; [|discriminate Hflags].
      cbn [option_map] in Hflags.
      destruct (flatMap flag_pair rest) as [others|]; [|discriminate Hflags].
      inversion Hflags; subst flags; clear Hflags.
      specialize (IH others eq_refl). split.
      * intros [Hhere|Hin].
        -- inversion Hhere; subst. exists key, v. simpl. auto.
        -- apply IH in Hin. destruct Hin as (k & x & Hk & Hrest).
           exists k, x. simpl. auto.
      * intros (k & x & [Hhere|Hk] & Hd & Hf & Hv).
        -- inversion Hhere; subst. left. rewrite Htext in Hv.
           inversion Hv. reflexivity.
        -- right. apply IH. exists k, x. auto.
    + destruct (flatMap flag_pair rest) as [others|]; [|discriminate Hflags].
      inversion Hflags; subst flags; clear Hflags.
      specialize (IH others eq_refl). split.
      * intros Hin. apply IH in Hin. destruct Hin as (k & x & Hk & Hrest).
        exists k, x. simpl. auto.
      * intros (k & x & [Hhere|Hk] & Hd & Hf & Hv).
        -- inversion Hhere; subst. rewrite Hdef in Hd. discriminate Hd.
        -- apply IH. exists k, x. auto.
Qed.

Lemma toFlags_intro (fields : Obj) (flags : list (string * string))
    (key : string) (value : JValue) :
  toFlags fields = Some flags ->
  In (key, value) fields -> defined value = true ->
  exists text, ToString value = Some text /\ In (flag_name key, text) flags.
Proof.
  unfold toFlags. revert flags.
  induction fields as [|[k v] rest IH]; intros flags Hflags Hin Hdef;
    [destruct Hin|].
  cbn [flatMap] in Hflags.
  destruct (flag_pair (k, v)) as [first|] eqn:Hpair; [|discriminate Hflags].
  destruct (flatMap flag_pair rest) as [others|] eqn:Hrest; [|discriminate Hflags].
  inversion Hflags; subst flags; clear Hflags.
  destruct Hin as [Hhere|Hin].
  - inversion Hhere; subst k v. rewrite flag_pair_defined, Hdef in Hpair.
    destruct (ToString value) as [text|]; [|discriminate Hpair].
    inversion Hpair; subst first. exists text. split; [reflexivity|].
    left. reflexivity.
  - destruct (IH others eq_refl Hin Hdef) as (text & Htext & Hmem).
    exists text. split; [exact Htext|]. apply in_or_app. right. exact Hmem.
Qed.

Lemma toFlags_inv (fields : Obj) (flags : list (string * string)) (flag : string) :
  toFlags fields = Some flags ->
  In flag (map fst flags) ->
  exists key value,
    In (key, value) fields /\ defined value = true /\ flag = flag_name key.
Proof.
  intros Hflags Hin. apply in_map_iff in Hin. destruct Hin as [[f v] [Hf Hin]].
  simpl in Hf. subst f.
  apply (proj1 (toFlags_In fields flags flag v Hflags)) in Hin.
  destruct Hin as (key & value & Hfield & Hdef & Hflag & _).
  exists key, value. auto.
Qed.

(** An object whose values all have a string form is marshalled. *)
Lemma flatMap_total {A B : Type} (f : A -> option (list B)) (l : list A) :
  (forall x, In x l -> f x <> None) -> flatMap f l <> None.
Proof.
  induction l as [|x r IH]; intros Hall; [discriminate|].
  cbn [flatMap].
  destruct (f x) eqn:Hx; [|exfalso; apply (Hall x); [left; reflexivity|exact Hx]].
  destruct (flatMap f r) eqn:Hr; [discriminate|].
  exfalso. apply IH; [|reflexivity]. intros y Hy. apply Hall. right. exact Hy.
Qed.


Lemma flag_words_total (key : string) (value : JValue) :
  ToString value <> None -> flag_words (key, value) <> None.
Proof.
  unfold flag_words. intros H. destruct value; try discriminate;
    match goal with
    | |- context [ToString ?v] =>
        destruct (ToString v); [discriminate|exfalso; apply H; reflexivity]
    end.
Qed.

Lemma get_convertible (args : Obj) (field : string) :
  convertible args = true -> ToString (get args field) <> None.
Proof.
  unfold convertible. induction args as [|[k v] rest IH]; simpl; intros H;
    [discriminate|].
  apply andb_prop in H. destruct H as [Hv Hrest].
  destruct (String.eqb k field); [|exact (IH Hrest)].
  destruct (ToString v); [discriminate|discriminate Hv].
Qed.

Lemma get_absent (args : Obj) (field : string) :
  ~ In field (keys args) -> get args field = JUndefined.
Proof.
  induction args as [|[k v] rest IH]; simpl; intros Hnot; [reflexivity|].
  destruct (String.eqb_spec k field) as [->|_].
  - exfalso. apply Hnot. left; reflexivity.
  - apply IH. intros H. apply Hnot. right; exact H.
Qed.

Lemma mem_In (x : string) (l : list string) : mem x l = true -> In x l.
Proof.
  unfold mem. intros H. apply existsb_exists in H.
  destruct H as [y [Hy Heq]]. apply String.eqb_eq in Heq. subst. exact Hy.
Qed.

Lemma order_type_value (v : JValue) :
  of_text (JSON_stringify (JObj [("limit", JObj [("tif", v)])]))
  = JStr (order_type_text v).
Proof.
  unfold order_type_text, JSON_stringify. cbn [serialize append].
  destruct (serialize EmptyString EmptyString v); reflexivity.
Qed.

(** ** What a handler spawns *)

Section Handlers.

Variable cfg : Config.
Variable PythonShell_run : list string -> Exn + list string.
Variable JSON_parse : option string -> Exn + JValue.

Local Abbreviation runBridge := (runBridgeScript cfg PythonShell_run JSON_parse).
Local Abbreviation callTool := (CallTool cfg PythonShell_run JSON_parse).
Local Abbreviation readResource := (ReadResource cfg PythonShell_run JSON_parse).
Local Abbreviation bridgeResult := (bridge_result PythonShell_run JSON_parse).
Local Abbreviation invokeTool := (invoke cfg PythonShell_run JSON_parse).

Lemma runBridgeScript_run (command : string) (args : Obj) (t : Trace) :
  runBridge command args t
  = match options_args cfg command args with
    | Some argv => (bridgeResult argv, (t ++ [argv])%list)
    | None => (inl not_primitive, t)
    end.
Proof.
  unfold runBridgeScript.
  destruct (options_args cfg command args) as [argv|]; [|reflexivity].
  unfold try_catch, bind, run_python, lift, throw, bridge_result.
  destruct (PythonShell_run argv) as [e|lines]; [reflexivity|].
  destruct (JSON_parse (nth_error lines 0)); reflexivity.
Qed.

Lemma CallTool_throw (tool : string) (args : option Obj) (e : Exn) (t : Trace) :
  dispatch tool args = inl e ->
  callTool tool args t
  = (inr (text_result
            (Some ("Error executing tool " ++ tool ++ ": " ++ error_text e))
            (Some true)), t).
Proof.
  intros H. unfold CallTool, try_catch, bind, lift. rewrite H. reflexivity.
Qed.

Lemma CallTool_invoke (tool : string) (args : option Obj) (t : Trace) :
  callTool tool args t
  = match invokeTool tool args t with
    | (inl e, t') =>
        (inr (text_result
                (Some ("Error executing tool " ++ tool ++ ": " ++ error_text e))
                (Some true)), t')
    | (inr result, t') =>
        match read_error result with
        | inl e =>
            (inr (text_result
                    (Some ("Error executing tool " ++ tool ++ ": " ++ error_text e))
                    (Some true)), t')
        | inr error =>
            if truthy error
            then match ToString error with
                 | Some message =>
                     (inr (text_result (Some ("Error: " ++ message)) (Some true)), t')
                 | None =>
                     (inr (text_result
                             (Some ("Error executing tool " ++ tool ++ ": "
                                    ++ error_text not_primitive))
                             (Some true)), t')
                 end
            else (inr (text_result (JSON_stringify_2 result) None), t')
        end
    end.
Proof.
  unfold CallTool, invoke, try_catch, bind, lift, ret, to_string.
  destruct (dispatch tool args) as [e|call]; [reflexivity|].
  destruct (runBridge (fst call) (snd call) t) as [[e|result] t']; [reflexivity|].
  destruct (read_error result) as [e|error]; [reflexivity|].
  destruct (truthy error); [|reflexivity].
  destruct (ToString error); reflexivity.
Qed.

Lemma invoke_run (tool : string) (args : option Obj) (t : Trace) :
  invokeTool tool args t
  = match dispatch tool args with
    | inl e => (inl e, t)
    | inr call =>
        match options_args cfg (fst call) (snd call) with
        | Some argv => (bridgeResult argv, (t ++ [argv])%list)
        | None => (inl not_primitive, t)
        end
    end.
Proof.
  unfold invoke, bind, lift. destruct (dispatch tool args) as [e|call];
    [reflexivity|]. apply runBridgeScript_run.
Qed.

Lemma CallTool_trace (tool : string) (args : option Obj) (t : Trace) :
  snd (callTool tool args t) = snd (invokeTool tool args t).
Proof.
  rewrite CallTool_invoke.
  destruct (invokeTool tool args t) as [[e|result] t']; [reflexivity|].
  destruct (read_error result) as [e|error]; [reflexivity|].
  destruct (truthy error); [|reflexivity].
  destruct (ToString error); reflexivity.
Qed.

Lemma CallTool_spawn (tool : string) (args : option Obj) (call : string * Obj)
    (t : Trace) :
  dispatch tool args = inr call ->
  snd (callTool tool args t)
  = (t ++ match options_args cfg (fst call) (snd call) with
          | Some argv => [argv]
          | None => []
          end)%list.
Proof.
  intros H. rewrite CallTool_trace, invoke_run, H.
  destruct (options_args cfg (fst call) (snd call)); cbn [snd]; [reflexivity|].
  rewrite app_nil_r. reflexivity.
Qed.

Lemma resource_options (m : ResourceMatch) :
  options_args cfg (fst (resource_call m)) (snd (resource_call m))
  = Some (resource_argv cfg m).
Proof. destruct m; reflexivity. Qed.

Lemma ReadResource_run (u : string) (t : Trace) :
  readResource u t
  = match match_uri u with
    | inl e => (inl e, t)
    | inr m =>
        let argv := resource_argv cfg m in
        (match bridgeResult argv with
         | inl e => inl e
         | inr data =>
             inr [ {| contents_uri := u;
                      contents_mimeType := "application/json";
                      contents_text := JSON_stringify_2 data |} ]
         end, (t ++ [argv])%list)
    end.
Proof.
  unfold ReadResource, bind, lift, ret.
  destruct (match_uri u) as [e|m]; [reflexivity|].
  rewrite runBridgeScript_run, resource_options. cbn zeta.
  destruct (bridgeResult _); reflexivity.
Qed.

Lemma find_tool_None (tool : string) :
  find_tool tool = None ->
  dispatch tool = fun _ => inl (McpError MethodNotFound ("Unknown tool: " ++ tool)).
Proof.
  unfold find_tool, tools, dispatch. cbn -[String.eqb].
  repeat match goal with
  | |- context [String.eqb ?a tool] =>
      rewrite (String.eqb_sym a tool); destruct (String.eqb tool a); [discriminate|]
  end.
  reflexivity.
Qed.

Lemma find_tool_Some (tool : string) (d : ToolDescriptor) :
  find_tool tool = Some d -> In d tools /\ name d = tool.
Proof.
  unfold find_tool. intros H. apply find_some in H. destruct H as [Hin Heq].
  apply String.eqb_eq in Heq. auto.
Qed.

Lemma dispatch_with_arguments (d : ToolDescriptor) (args : Obj) :
  In d tools -> exists call, dispatch (name d) (Some args) = inr call.
Proof.
  unfold tools. simpl.
  intros [<-|[<-|[<-|[<-|[<-|[<-|[]]]]]]]; eexists; reflexivity.
Qed.

Lemma dispatch_without_arguments (d : ToolDescriptor) :
  In d tools -> dispatch (name d) None = inl arguments_required.
Proof.
  unfold tools. simpl.
  intros [<-|[<-|[<-|[<-|[<-|[<-|[]]]]]]]; reflexivity.
Qed.

(** The values dispatch passes are those of the arguments, or strings. *)
Lemma dispatch_convertible (d : ToolDescriptor) (args : Obj) (call : string * Obj) :
  In d tools -> convertible args = true ->
  dispatch (name d) (Some args) = inr call ->
  options_args cfg (fst call) (snd call) <> None.
Proof.
  intros Hd Hargs Hcall. unfold options_args.
  assert (Hwords : flatMap flag_words (snd call) <> None).
  { apply flatMap_total. intros [key value] Hin. apply flag_words_total.
    revert Hd Hcall Hin. unfold tools. simpl.
    intros [<-|[<-|[<-|[<-|[<-|[<-|[]]]]]]] Hcall Hin;
      inversion Hcall; subst call; clear Hcall; simpl in Hin;
      repeat (destruct Hin as [Hin|Hin];
              [inversion Hin; subst key value; clear Hin;
               first [ apply get_convertible; exact Hargs
                     | unfold true_false; discriminate
                     | destruct (is_undefined _); discriminate
                     | rewrite order_type_value; discriminate ] |]);
      destruct Hin. }
  destruct (flatMap flag_words (snd call)); [discriminate|].
  exfalso. apply Hwords. reflexivity.
Qed.

(** C1 (what the code does): a call-tool request whose tool name is not in
    the catalog does not raise a method-not-found protocol error. The
    McpError thrown by the default case is caught by the handler's own
    try/catch and comes back as a tool-result response with the error flag
    set, and no bridge process is spawned. *)
Theorem C1_unknown_tool_is_caught (tool : string) (args : option Obj) (t : Trace) :
  find_tool tool = None ->
  callTool tool args t
  = (inr (text_result
            (Some ("Error executing tool " ++ tool
                   ++ ": MCP error -32601: Unknown tool: " ++ tool))
            (Some true)), t).
Proof.
  intros Hunknown.
  rewrite (CallTool_throw tool args
             (McpError MethodNotFound ("Unknown tool: " ++ tool)) t).
  - reflexivity.
  - rewrite (find_tool_None tool Hunknown). reflexivity.
Qed.

(** C2 (amended): for a call-tool request that names a catalog tool, the one
    check made before a bridge process is spawned is that the request has an
    arguments object. Without one the call is answered 'Error executing tool
    <name>: Arguments are required' with the error flag set and nothing is
    spawned. With one, no field is tested for presence: the call is
    dispatched to the command of the tool's case whatever fields it holds,
    and exactly one bridge process is spawned, unless a value it passes has
    no string form, in which case the marshalling throws and the call is
    answered with the error flag set. When every value of the arguments has
    a string form (so with no field at all), one process is spawned. *)
Theorem C2_only_arguments_object_checked (tool : string) (d : ToolDescriptor) :
  find_tool tool = Some d ->
  (forall t,
      callTool tool None t
      = (inr (text_result
                (Some ("Error executing tool " ++ tool ++ ": Arguments are required"))
                (Some true)), t))
  /\ (forall args, exists command fields,
         dispatch tool (Some args) = inr (command, fields)
         /\ match options_args cfg command fields with
            | Some argv => spawned (callTool tool (Some args)) = [argv]
            | None =>
                callTool tool (Some args) []
                = (inr (text_result
                          (Some ("Error executing tool " ++ tool
                                 ++ ": Cannot convert object to primitive value"))
                          (Some true)), [])
            end)
  /\ (forall args, convertible args = true ->
        exists argv, spawned (callTool tool (Some args)) = [argv]).
Proof.
  intros Hfind. apply find_tool_Some in Hfind. destruct Hfind as [Hin <-].
  split; [|split].
  - intros t.
    apply (CallTool_throw (name d) None arguments_required t).
    apply dispatch_without_arguments, Hin.
  - intros args.
    destruct (dispatch_with_arguments d args Hin) as [[command fields] Hcall].
    exists command, fields. split; [exact Hcall|].
    destruct (options_args cfg command fields) as [argv|] eqn:Hargv.
    + unfold spawned. rewrite (CallTool_spawn _ _ _ [] Hcall).
      cbn [fst snd]. rewrite Hargv. reflexivity.
    + rewrite CallTool_invoke, invoke_run, Hcall. cbn [fst snd].
      rewrite Hargv. reflexivity.
  - intros args Hargs.
    destruct (dispatch_with_arguments d args Hin) as [call Hcall].
    pose proof (dispatch_convertible d args call Hin Hargs Hcall) as Hsome.
    destruct (options_args cfg (fst call) (snd call)) as [argv|] eqn:Hargv;
      [|exfalso; apply Hsome; reflexivity].
    exists argv. unfold spawned. rewrite (CallTool_spawn _ _ _ [] Hcall), Hargv.
    reflexivity.
Qed.

Lemma CallTool_returns (tool : string) (args : option Obj) (t : Trace) :
  exists r t', callTool tool args t = (inr r, t').
Proof.
  rewrite CallTool_invoke.
  destruct (invokeTool tool args t) as [[e|result] t']; [eauto|].
  destruct (read_error result) as [e|error]; [eauto|].
  destruct (truthy error); [|eauto].
  destruct (ToString error); eauto.
Qed.

(** C4 (amended): the call-tool handler never throws. A failure raised by
    dispatch, by the marshalling of a value that has no string form, or by
    the bridge invocation (spawn, exit status, parsing) comes back as the
    text 'Error executing tool <name>: <message>' with the error flag set. A
    bridge result whose [error] property is truthy and has a string form
    comes back as 'Error: <message>' with the error flag set. Every bridge
    result other than [null] whose [error] property is falsy or absent, an
    [error] that is present but falsy included, comes back as its JSON text
    indented by two spaces, with no error flag. *)
Theorem C4_tool_call_responses (tool : string) (args : option Obj) (t : Trace) :
  let invoked := fst (invokeTool tool args t) in
  let response := fst (callTool tool args t) in
  (forall e, invoked = inl e ->
     response = inr (text_result
                       (Some ("Error executing tool " ++ tool ++ ": " ++ error_text e))
                       (Some true)))
  /\ (forall call,
        dispatch tool args = inr call ->
        options_args cfg (fst call) (snd call) = None ->
        callTool tool args t
        = (inr (text_result
                  (Some ("Error executing tool " ++ tool
                         ++ ": Cannot convert object to primitive value"))
                  (Some true)), t))
  /\ (forall result error message,
        invoked = inr result -> read_error result = inr error ->
        truthy error = true -> ToString error = Some message ->
        response = inr (text_result (Some ("Error: " ++ message)) (Some true)))
  /\ (forall result error,
        invoked = inr result -> read_error result = inr error ->
        truthy error = false ->
        response = inr (text_result (JSON_stringify_2 result) None))
  /\ (exists r, response = inr r).
Proof.
  intros invoked response. subst invoked response.
  split; [|split; [|split; [|split]]].
  - intros e He. rewrite CallTool_invoke.
    destruct (invokeTool tool args t) as [[e0|result0] t']; cbn [fst] in *;
      inversion He. reflexivity.
  - intros call Hcall Hargv. rewrite CallTool_invoke, invoke_run, Hcall, Hargv.
    reflexivity.
  - intros result error message Hres Herr Htruthy Hmessage.
    rewrite CallTool_invoke.
    destruct (invokeTool tool args t) as [[e0|result0] t']; cbn [fst] in *;
      inversion Hres; subst. rewrite Herr, Htruthy, Hmessage. reflexivity.
  - intros result error Hres Herr Hfalsy. rewrite CallTool_invoke.
    destruct (invokeTool tool args t) as [[e0|result0] t']; cbn [fst] in *;
      inversion Hres; subst. rewrite Herr, Hfalsy. reflexivity.
  - destruct (CallTool_returns tool args t) as (r & t' & ->). exists r. reflexivity.
Qed.

(** C5: a place_limit_order call with {coin: BTC, isBuy: true, size: 0.1,
    price: 50000, timeInForce: Gtc} spawns one bridge process with command
    place-order, and among its flags is --order-type with the string value
    {"limit":{"tif":"Gtc"}}. *)
Theorem C5_limit_order_order_type :
  let args := [ ("coin", JStr "BTC"); ("isBuy", JBool true); ("size", JDec "0.1");
                ("price", JNum 50000); ("timeInForce", JStr "Gtc") ] in
  let order_type :=
    "{" ++ dq ++ "limit" ++ dq ++ ":{" ++ dq ++ "tif" ++ dq ++ ":"
    ++ dq ++ "Gtc" ++ dq ++ "}}" in
  exists fields flags,
    dispatch "place_limit_order" (Some args) = inr ("place-order", fields)
    /\ toFlags fields = Some flags
    /\ flags
       = [ ("--coin", "BTC"); ("--is-buy", "true"); ("--size", "0.1");
           ("--price", "50000"); ("--order-type", order_type);
           ("--reduce-only", "false") ]
    /\ In ("--order-type", order_type) flags
    /\ spawned (callTool "place_limit_order" (Some args))
       = [ "place-order" :: fixed_words cfg ++ flatten flags ].
Proof.
  intros args order_type.
  destruct (dispatch "place_limit_order" (Some args)) as [e|[command fields]] eqn:Hcall;
    [discriminate|].
  assert (Hcommand : command = "place-order") by (inversion Hcall; reflexivity).
  subst command.
  assert (Hflags : toFlags fields
                   = Some [ ("--coin", "BTC"); ("--is-buy", "true"); ("--size", "0.1");
                            ("--price", "50000"); ("--order-type", order_type);
                            ("--reduce-only", "false") ]).
  { inversion Hcall. reflexivity. }
  exists fields. eexists.
  split; [reflexivity|]. split; [exact Hflags|]. split; [reflexivity|]. split.
  - simpl. do 4 right. left. reflexivity.
  - unfold spawned. rewrite (CallTool_spawn _ _ _ [] Hcall). cbn [fst snd].
    rewrite options_args_shape, Hflags. reflexivity.
Qed.

(** [account_words], spelled out on the configured address. *)
Lemma account_words_cases :
  account_words cfg
  = match ACCOUNT_ADDRESS cfg with
    | Some a => if is_empty a then [] else ["--account-address"; a]
    | None => []
    end.
Proof. unfold account_words. destruct (ACCOUNT_ADDRESS cfg) as [[|c a]|]; reflexivity. Qed.

(** C7: the command line of every bridge invocation is the command name,
    then --secret-key and the configured key, then --network and the
    configured network, then --account-address and the configured address
    exactly when the configured address is a non-empty string, and after
    these the call-specific flags, each followed by its value. This holds of
    every runBridgeScript call that gets to invoke the bridge (one whose
    marshalling throws invokes nothing), hence of every process a tool call
    or a resource read spawns. *)
Theorem C7_fixed_flags_first :
  let account :=
    match ACCOUNT_ADDRESS cfg with
    | Some a => if is_empty a then [] else ["--account-address"; a]
    | None => []
    end in
  (forall command args t flags,
      toFlags args = Some flags ->
      snd (runBridge command args t)
      = (t ++ [ [command; "--secret-key"; SECRET_KEY cfg; "--network"; NETWORK cfg]
                ++ account ++ flatten flags ])%list)
  /\ (forall command args t,
        toFlags args = None -> snd (runBridge command args t) = t)
  /\ (forall tool args argv,
        In argv (spawned (callTool tool args)) ->
        exists command fields flags,
          toFlags fields = Some flags
          /\ argv = ([command; "--secret-key"; SECRET_KEY cfg; "--network"; NETWORK cfg]
                     ++ account ++ flatten flags)%list)
  /\ (forall u argv,
        In argv (spawned (readResource u)) ->
        exists command fields flags,
          toFlags fields = Some flags
          /\ argv = ([command; "--secret-key"; SECRET_KEY cfg; "--network"; NETWORK cfg]
                     ++ account ++ flatten flags)%list).
Proof.
  intros account. subst account. rewrite <- account_words_cases.
  assert (Hshape : forall command fields argv,
             options_args cfg command fields = Some argv ->
             exists flags,
               toFlags fields = Some flags
               /\ argv = ([command; "--secret-key"; SECRET_KEY cfg; "--network";
                           NETWORK cfg]
                          ++ account_words cfg ++ flatten flags)%list).
  { intros command fields argv. rewrite options_args_shape.
    destruct (toFlags fields) as [flags|]; [|discriminate].
    intros H. inversion H. exists flags. split; reflexivity. }
  split; [|split; [|split]].
  - intros command args t flags Hflags. rewrite runBridgeScript_run.
    rewrite options_args_shape, Hflags. reflexivity.
  - intros command args t Hflags. rewrite runBridgeScript_run.
    rewrite options_args_shape, Hflags. reflexivity.
  - intros tool args argv Hin. unfold spawned in Hin.
    destruct (dispatch tool args) as [e|[command fields]] eqn:Hcall.
    + rewrite (CallTool_throw _ _ _ [] Hcall) in Hin. destruct Hin.
    + rewrite (CallTool_spawn _ _ _ [] Hcall) in Hin. cbn [fst snd] in Hin.
      destruct (options_args cfg command fields) as [argv'|] eqn:Hargv;
        [|destruct Hin].
      destruct Hin as [<-|[]].
      destruct (Hshape _ _ _ Hargv) as (flags & Hflags & Heq).
      exists command, fields, flags. auto.
  - intros u argv Hin. unfold spawned in Hin. rewrite ReadResource_run in Hin.
    destruct (match_uri u) as [e|m]; [destruct Hin|].
    destruct Hin as [<-|[]].
    destruct (Hshape _ _ _ (resource_options m)) as (flags & Hflags & Heq).
    exists (fst (resource_call m)), (snd (resource_call m)), flags. auto.
Qed.

(** ** Optional fields *)

Ltac other_flag Hflags H :=
  apply (toFlags_inv _ _ _ Hflags) in H;
  let key := fresh "key" in
  let value := fresh "value" in
  let Hfield := fresh "Hfield" in
  let Hdef := fresh "Hdef" in
  let Hflag := fresh "Hflag" in
  destruct H as (key & value & Hfield & Hdef & Hflag);
  simpl in Hfield;
  repeat (destruct Hfield as [Hfield|Hfield];
          [inversion Hfield; subst key value; clear Hfield;
           first [ vm_compute in Hflag; discriminate Hflag | idtac ] |]);
  try contradiction.

(** The optional fields of the catalog, tool by tool. *)
Lemma optional_fields (d : ToolDescriptor) (field : string) :
  In d tools -> optional_field d field = true ->
  (name d = "get_market_data"
   /\ In field ["coin"; "interval"; "startTime"; "endTime"])
  \/ (name d = "get_user_data" /\ In field ["startTime"; "endTime"])
  \/ (name d = "place_limit_order" /\ In field ["reduceOnly"; "clientOrderId"])
  \/ (name d = "place_market_order" /\ In field ["slippage"; "clientOrderId"])
  \/ (name d = "cancel_order" /\ In field ["orderId"; "clientOrderId"])
  \/ (name d = "update_leverage" /\ field = "isCross").
Proof.
  unfold tools, optional_field.
  intros Hin Hopt. apply andb_prop in Hopt. destruct Hopt as [Hdeclared Hnot].
  apply mem_In in Hdeclared. apply negb_true_iff in Hnot.
  simpl in Hin.
  destruct Hin as [<-|[<-|[<-|[<-|[<-|[<-|[]]]]]]]; simpl in Hdeclared;
    repeat (destruct Hdeclared as [<-|Hdeclared]; try discriminate Hnot);
    try contradiction; simpl; tauto.
Qed.

(** C3 (amended): for every tool of the catalog and every optional field of
    its schema that the call's arguments do not hold, the bridge invocation
    carries no flag for that field, except for two fields the handler gives
    a default: an absent reduceOnly of place_limit_order is passed as
    --reduce-only false, and an absent isCross of update_leverage as
    --is-cross true. (The invocation is the one made when the marshalling of
    the fields succeeds, with the flags [flags].) *)
Theorem C3_absent_optional_fields
    (d : ToolDescriptor) (field : string) (args : Obj)
    (command : string) (fields : Obj) (flags : list (string * string)) :
  In d tools ->
  optional_field d field = true ->
  ~ In field (keys args) ->
  dispatch (name d) (Some args) = inr (command, fields) ->
  toFlags fields = Some flags ->
  spawned (callTool (name d) (Some args))
  = [ command :: fixed_words cfg ++ flatten flags ]
  /\ (field <> "reduceOnly" -> field <> "isCross" ->
      ~ In (flag_name (bridge_key field)) (map fst flags))
  /\ (field = "reduceOnly" -> In ("--reduce-only", "false") flags)
  /\ (field = "isCross" -> In ("--is-cross", "true") flags).
Proof.
  intros Hin Hopt Habsent Hcall Hflags.
  split.
  { unfold spawned. rewrite (CallTool_spawn _ _ _ [] Hcall). cbn [fst snd].
    rewrite options_args_shape, Hflags. reflexivity. }
  apply get_absent in Habsent.
  destruct (optional_fields d field Hin Hopt)
    as [[Hn Hf]|[[Hn Hf]|[[Hn Hf]|[[Hn Hf]|[[Hn Hf]|[Hn Hf]]]]]];
    rewrite Hn in Hcall; clear Hn Hin Hopt; simpl in Hf;
    repeat (destruct Hf as [Hf|Hf]); try contradiction; subst field;
    inversion Hcall; subst command fields; clear Hcall;
    (split; [intros Hr Hc; try (exfalso; apply Hr; reflexivity);
             try (exfalso; apply Hc; reflexivity);
             intros Hflag; other_flag Hflags Hflag;
             rewrite Habsent in Hdef; discriminate Hdef
            |split; intros Heq; try discriminate Heq;
             (match goal with
              | |- In (_, "false") _ =>
                  destruct (toFlags_intro _ _ "reduceOnly" (JStr "false") Hflags)
                    as (text & Htext & Hmem)
              | |- In (_, "true") _ =>
                  destruct (toFlags_intro _ _ "isCross" (JStr "true") Hflags)
                    as (text & Htext & Hmem)
              end;
              [rewrite Habsent; simpl; tauto | reflexivity
              | inversion Htext; subst text; exact Hmem])]).
Qed.

(** The table [bridge_key] is the handler's: an optional field that the
    arguments hold with a value other than [null] does get its flag. *)
Lemma present_optional_field_has_flag
    (d : ToolDescriptor) (field : string) (args : Obj)
    (command : string) (fields : Obj) (flags : list (string * string)) :
  In d tools ->
  optional_field d field = true ->
  defined (get args field) = true ->
  dispatch (name d) (Some args) = inr (command, fields) ->
  toFlags fields = Some flags ->
  In (flag_name (bridge_key field)) (map fst flags).
Proof.
  intros Hin Hopt Hdef Hcall Hflags.
  assert (Hkey : exists value,
             In (bridge_key field, value) fields /\ defined value = true).
  { destruct (optional_fields d field Hin Hopt)
      as [[Hn Hf]|[[Hn Hf]|[[Hn Hf]|[[Hn Hf]|[[Hn Hf]|[Hn Hf]]]]]];
      rewrite Hn in Hcall; clear Hn Hin Hopt; simpl in Hf;
      repeat (destruct Hf as [Hf|Hf]); try contradiction; subst field;
      inversion Hcall; subst command fields; clear Hcall Hflags;
      try (eexists; split; [simpl; tauto | exact Hdef]);
      eexists; (split; [simpl; tauto |]);
      destruct (get args _); try discriminate Hdef;
      try reflexivity; destruct (truthy _); reflexivity. }
  destruct Hkey as [value [Hfield Hvalue]].
  destruct (toFlags_intro _ _ _ _ Hflags Hfield Hvalue) as (text & _ & Hmem).
  apply in_map_iff. exists (flag_name (bridge_key field), text).
  split; [reflexivity|exact Hmem].
Qed.

End Handlers.

(** ** Patterns and path segments *)

Lemma append_assoc (a b c : string) : (a ++ b) ++ c = a ++ b ++ c.
Proof. induction a as [|x a IH]; simpl; [reflexivity|]. rewrite IH. reflexivity. Qed.

Lemma append_empty (a : string) : a ++ EmptyString = a.
Proof. induction a as [|x a IH]; simpl; [reflexivity|]. rewrite IH. reflexivity. Qed.

Lemma append_inj_l (p a b : string) : p ++ a = p ++ b -> a = b.
Proof.
  induction p as [|c p IH]; simpl; intros H; [exact H|].
  apply IH. inversion H. reflexivity.
Qed.

Lemma is_empty_true (s : string) : is_empty s = true -> s = EmptyString.
Proof. destruct s; [reflexivity|discriminate]. Qed.

Lemma strip_prefix_app (p r : string) : strip_prefix p (p ++ r) = Some r.
Proof.
  induction p as [|c p IH]; simpl; [reflexivity|].
  rewrite Ascii.eqb_refl. exact IH.
Qed.

Lemma strip_prefix_Some (p s r : string) : strip_prefix p s = Some r -> s = p ++ r.
Proof.
  revert s. induction p as [|c p IH]; simpl; intros s H.
  - inversion H. reflexivity.
  - destruct s as [|b s]; [discriminate|].
    destruct (Ascii.eqb_spec c b) as [->|_]; [|discriminate].
    rewrite (IH s H). reflexivity.
Qed.

Lemma take_drop (n : nat) (s : string) : take n s ++ drop n s = s.
Proof.
  revert s. induction n as [|n IH]; intros s; [reflexivity|].
  destruct s as [|c s]; simpl; [reflexivity|]. rewrite IH. reflexivity.
Qed.

Lemma drop_in_run (n : nat) (s : string) :
  n < run_length s ->
  exists c r, drop n s = String c r /\ Ascii.eqb c "/" = false.
Proof.
  revert s. induction n as [|n IH]; intros s Hlt.
  - destruct s as [|c s]; simpl in Hlt; [lia|].
    destruct (Ascii.eqb c "/") eqn:Hc; [lia|]. exists c, s. auto.
  - destruct s as [|c s]; simpl in Hlt; [lia|].
    destruct (Ascii.eqb c "/") eqn:Hc; [lia|]. simpl. apply IH. lia.
Qed.

Lemma drop_run_stops (s : string) : stops (drop (run_length s) s) = true.
Proof.
  induction s as [|c s IH]; [reflexivity|].
  simpl. destruct (Ascii.eqb c "/") eqn:Hc; simpl; [exact Hc|exact IH].
Qed.

Lemma take_run_segment (s : string) :
  run_length s <> 0 -> is_segment (take (run_length s) s) = true.
Proof.
  intros Hpos. unfold is_segment. apply andb_true_intro. split.
  - destruct s as [|c s]; simpl in *; [lia|].
    destruct (Ascii.eqb c "/"); [lia|reflexivity].
  - apply Nat.eqb_eq. clear Hpos.
    induction s as [|c s IH]; [reflexivity|].
    simpl. destruct (Ascii.eqb c "/") eqn:Hc; [reflexivity|].
    simpl. rewrite Hc, IH. reflexivity.
Qed.

Lemma segment_run (seg tail : string) :
  is_segment seg = true -> stops tail = true ->
  run_length (seg ++ tail) = String.length seg /\ String.length seg <> 0.
Proof.
  unfold is_segment. intros Hseg Hstop.
  apply andb_prop in Hseg. destruct Hseg as [Hne Hrun].
  apply Nat.eqb_eq in Hrun. split.
  - clear Hne. induction seg as [|c seg IH]; simpl in *.
    + destruct tail as [|c tail]; [reflexivity|]. simpl in Hstop. simpl.
      rewrite Hstop. reflexivity.
    + destruct (Ascii.eqb c "/"); [discriminate|]. f_equal. apply IH. lia.
  - destruct seg; [discriminate|]. simpl. lia.
Qed.

Lemma take_length_app (a b : string) : take (String.length a) (a ++ b) = a.
Proof.
  induction a as [|c a IH]; simpl.
  - destruct b; reflexivity.
  - rewrite IH. reflexivity.
Qed.

Lemma drop_length_app (a b : string) : drop (String.length a) (a ++ b) = b.
Proof. induction a as [|c a IH]; simpl; [reflexivity|exact IH]. Qed.

Lemma guarded_end : guarded [].
Proof. intros c r _. reflexivity. Qed.

Lemma guarded_slash (s : string) (re : list ReItem) :
  guarded (Lit (String "/" s) :: re).
Proof.
  intros c r Hc. cbn [re_match strip_prefix].
  rewrite Ascii.eqb_sym, Hc. reflexivity.
Qed.

Lemma attempt_below (rest : string -> option (list string)) (s : string) (n : nat) :
  (forall c r, Ascii.eqb c "/" = false -> rest (String c r) = None) ->
  n < run_length s -> attempt rest s n = None.
Proof.
  intros Hguard. induction n as [|n IH]; intros Hlt; [reflexivity|].
  cbn [attempt].
  destruct (drop_in_run (S n) s Hlt) as (c & r & Hdrop & Hc).
  rewrite Hdrop, (Hguard c r Hc). apply IH. lia.
Qed.

(** Only the longest run can be the group. *)
Lemma attempt_run_length (rest : string -> option (list string)) (s : string) :
  (forall c r, Ascii.eqb c "/" = false -> rest (String c r) = None) ->
  attempt rest s (run_length s)
  = match run_length s with
    | 0 => None
    | S _ => option_map (cons (take (run_length s) s)) (rest (drop (run_length s) s))
    end.
Proof.
  intros Hguard. destruct (run_length s) as [|n] eqn:Hrun; [reflexivity|].
  cbn [attempt]. destruct (rest (drop (S n) s)); [reflexivity|].
  simpl. apply attempt_below; [exact Hguard|lia].
Qed.

Lemma re_match_segment (p seg tail : string) (re : list ReItem) :
  guarded re -> is_segment seg = true -> stops tail = true ->
  re_match (Lit p :: Seg :: re) (p ++ seg ++ tail)
  = option_map (cons seg) (re_match re tail).
Proof.
  intros Hguard Hseg Hstop.
  cbn [re_match]. rewrite strip_prefix_app.
  rewrite (attempt_run_length _ _ Hguard).
  destruct (segment_run seg tail Hseg Hstop) as [Hrun Hpos].
  rewrite Hrun. destruct (String.length seg) as [|n] eqn:Hlen; [contradiction|].
  rewrite <- Hlen, take_length_app, drop_length_app. reflexivity.
Qed.

Lemma re_match_inv (p u : string) (re : list ReItem) (caps : list string) :
  guarded re ->
  re_match (Lit p :: Seg :: re) u = Some caps ->
  exists seg tail caps',
    is_segment seg = true /\ stops tail = true /\ u = p ++ seg ++ tail
    /\ re_match re tail = Some caps' /\ caps = seg :: caps'.
Proof.
  intros Hguard. cbn [re_match].
  destruct (strip_prefix p u) as [s|] eqn:Hstrip; [|discriminate].
  rewrite (attempt_run_length _ _ Hguard).
  destruct (run_length s) as [|n] eqn:Hrun; [discriminate|].
  rewrite <- Hrun.
  destruct (re_match re (drop (run_length s) s)) as [caps'|] eqn:Hrest;
    [|discriminate].
  simpl. intros Hcaps. inversion Hcaps; subst caps.
  exists (take (run_length s) s), (drop (run_length s) s), caps'.
  split; [apply take_run_segment; lia|].
  split; [apply drop_run_stops|].
  split; [|auto].
  rewrite take_drop. apply strip_prefix_Some, Hstrip.
Qed.

(** The three patterns, on the URIs their templates describe. *)
Lemma l2_book_matches (u : string) (caps : list string) :
  re_match re_l2_book u = Some caps
  <-> exists seg, is_segment seg = true
                  /\ u = "hyperliquid://market/l2-book/" ++ seg /\ caps = [seg].
Proof.
  unfold re_l2_book. split.
  - intros H. apply (re_match_inv _ _ _ _ guarded_end) in H.
    destruct H as (seg & tail & caps' & Hseg & _ & Hu & Hrest & Hcaps).
    simpl in Hrest. destruct tail; [|discriminate]. inversion Hrest; subst.
    exists seg. rewrite append_empty. auto.
  - intros (seg & Hseg & -> & ->).
    pose proof (re_match_segment "hyperliquid://market/l2-book/" seg EmptyString
                  [] guarded_end Hseg eq_refl) as H.
    rewrite append_empty in H. exact H.
Qed.

Lemma suffix_matches (p s u : string) (caps : list string) :
  re_match [Lit p; Seg; Lit (String "/" s)] u = Some caps
  <-> exists seg, is_segment seg = true
                  /\ u = p ++ seg ++ String "/" s /\ caps = [seg].
Proof.
  split.
  - intros H. apply (re_match_inv _ _ _ _ (guarded_slash s [])) in H.
    destruct H as (seg & tail & caps' & Hseg & _ & Hu & Hrest & Hcaps).
    cbn [re_match] in Hrest.
    destruct (strip_prefix (String "/" s) tail) as [e|] eqn:Hstrip; [|discriminate].
    destruct e; [|discriminate]. inversion Hrest; subst caps'.
    apply strip_prefix_Some in Hstrip. rewrite append_empty in Hstrip. subst tail.
    exists seg. auto.
  - intros (seg & Hseg & -> & ->).
    rewrite (re_match_segment p seg (String "/" s) _ (guarded_slash s []) Hseg eq_refl).
    cbn [re_match].
    pose proof (strip_prefix_app (String "/" s) EmptyString) as H.
    rewrite append_empty in H. rewrite H. reflexivity.
Qed.

(** ** Percent-decoding *)

Lemma unescape_plain (s : string) :
  no_percent s = true -> unescape s = Some (map Plain (list_ascii_of_string s)).
Proof.
  induction s as [|c s IH]; simpl; intros H; [reflexivity|].
  apply andb_prop in H. destruct H as [Hc Hs].
  apply negb_true_iff in Hc. rewrite Hc, (IH Hs). reflexivity.
Qed.

Lemma utf8_octets_plain (s : string) :
  utf8_octets 0 0 0 (map Plain (list_ascii_of_string s)) = Some s.
Proof. induction s as [|c s IH]; simpl; [reflexivity|]. rewrite IH. reflexivity. Qed.

(** A string without a percent sign decodes to itself. *)
Lemma decodeURIComponent_plain (s : string) :
  no_percent s = true -> decodeURIComponent s = Some s.
Proof.
  intros H. unfold decodeURIComponent. rewrite (unescape_plain s H).
  apply utf8_octets_plain.
Qed.

(** ** Resource matching *)

Lemma match_uri_l2_book (seg : string) :
  is_segment seg = true ->
  match_uri ("hyperliquid://market/l2-book/" ++ seg) = decoded L2Book seg.
Proof.
  intros Hseg. unfold match_uri.
  replace (String.eqb ("hyperliquid://market/l2-book/" ++ seg)
                      "hyperliquid://market/all-mids") with false by reflexivity.
  rewrite (proj2 (l2_book_matches _ [seg])); [reflexivity|].
  exists seg. auto.
Qed.

Lemma match_uri_user_state (seg : string) :
  is_segment seg = true ->
  match_uri ("hyperliquid://user/" ++ seg ++ "/state") = decoded UserState seg.
Proof.
  intros Hseg. unfold match_uri.
  replace (String.eqb ("hyperliquid://user/" ++ seg ++ "/state")
                      "hyperliquid://market/all-mids") with false by reflexivity.
  replace (re_match re_l2_book ("hyperliquid://user/" ++ seg ++ "/state"))
    with (@None (list string)) by reflexivity.
  unfold re_user_state.
  rewrite (proj2 (suffix_matches _ _ _ [seg])); [reflexivity|].
  exists seg. auto.
Qed.

Lemma match_uri_open_orders (seg : string) :
  is_segment seg = true ->
  match_uri ("hyperliquid://user/" ++ seg ++ "/open-orders") = decoded OpenOrders seg.
Proof.
  intros Hseg. unfold match_uri.
  replace (String.eqb ("hyperliquid://user/" ++ seg ++ "/open-orders")
                      "hyperliquid://market/all-mids") with false by reflexivity.
  replace (re_match re_l2_book ("hyperliquid://user/" ++ seg ++ "/open-orders"))
    with (@None (list string)) by reflexivity.
  unfold re_user_state at 1.
  rewrite (re_match_segment "hyperliquid://user/" seg "/open-orders" _
             (guarded_slash "state" []) Hseg eq_refl).
  cbn [re_match strip_prefix Ascii.eqb Bool.eqb option_map].
  unfold re_open_orders.
  rewrite (proj2 (suffix_matches _ _ _ [seg])); [reflexivity|].
  exists seg. auto.
Qed.

Lemma match_uri_no_match (u : string) :
  u <> "hyperliquid://market/all-mids" ->
  (forall seg, is_segment seg = true -> u <> "hyperliquid://market/l2-book/" ++ seg) ->
  (forall seg, is_segment seg = true -> u <> "hyperliquid://user/" ++ seg ++ "/state") ->
  (forall seg, is_segment seg = true ->
               u <> "hyperliquid://user/" ++ seg ++ "/open-orders") ->
  match_uri u = inl (McpError InvalidRequest ("Invalid URI format: " ++ u)).
Proof.
  intros Hliteral Hbook Hstate Horders. unfold match_uri.
  destruct (String.eqb_spec u "hyperliquid://market/all-mids") as [Heq|_];
    [contradiction|].
  destruct (re_match re_l2_book u) as [caps|] eqn:Hm.
  { apply l2_book_matches in Hm. destruct Hm as (seg & Hseg & Hu & _).
    exfalso. exact (Hbook seg Hseg Hu). }
  clear Hm.
  destruct (re_match re_user_state u) as [caps|] eqn:Hm.
  { apply suffix_matches in Hm. destruct Hm as (seg & Hseg & Hu & _).
    exfalso. exact (Hstate seg Hseg Hu). }
  clear Hm.
  destruct (re_match re_open_orders u) as [caps|] eqn:Hm.
  { apply suffix_matches in Hm. destruct Hm as (seg & Hseg & Hu & _).
    exfalso. exact (Horders seg Hseg Hu). }
  reflexivity.
Qed.

(** C6: on read-resource the literal URI is tested first, by string
    equality; then the three patterns, which are the anchored patterns of
    the three URI templates with each {param} placeholder a group of one or
    more characters other than a slash, and the value of the group is
    percent-decoded; a URI that is neither the literal nor an instance of a
    template gets an invalid-request error. So hyperliquid://market/all-mids
    is the literal resource, hyperliquid://market/l2-book/BTC gives coin BTC,
    hyperliquid://user/0xABC/state gives address 0xABC, and
    hyperliquid://bogus gives the invalid-request error. *)
Theorem C6_resource_matching :
  map uri resources = ["hyperliquid://market/all-mids"]
  /\ map (fun t => template_pattern (uriTemplate t)) resourceTemplates
     = [re_l2_book; re_user_state; re_open_orders]
  /\ match_uri "hyperliquid://market/all-mids" = inr AllMids
  /\ (forall seg, is_segment seg = true ->
        match_uri ("hyperliquid://market/l2-book/" ++ seg) = decoded L2Book seg)
  /\ (forall seg, is_segment seg = true ->
        match_uri ("hyperliquid://user/" ++ seg ++ "/state") = decoded UserState seg)
  /\ (forall seg, is_segment seg = true ->
        match_uri ("hyperliquid://user/" ++ seg ++ "/open-orders")
        = decoded OpenOrders seg)
  /\ (forall u,
        u <> "hyperliquid://market/all-mids" ->
        (forall seg, is_segment seg = true ->
                     u <> "hyperliquid://market/l2-book/" ++ seg) ->
        (forall seg, is_segment seg = true ->
                     u <> "hyperliquid://user/" ++ seg ++ "/state") ->
        (forall seg, is_segment seg = true ->
                     u <> "hyperliquid://user/" ++ seg ++ "/open-orders") ->
        match_uri u = inl (McpError InvalidRequest ("Invalid URI format: " ++ u)))
  /\ match_uri "hyperliquid://market/l2-book/BTC" = inr (L2Book "BTC")
  /\ match_uri "hyperliquid://user/0xABC/state" = inr (UserState "0xABC")
  /\ match_uri "hyperliquid://bogus"
     = inl (Err (McpErrorClass InvalidRequest)
                "MCP error -32600: Invalid URI format: hyperliquid://bogus").
Proof.
  split; [reflexivity|]. split; [reflexivity|]. split; [reflexivity|].
  split; [exact match_uri_l2_book|].
  split; [exact match_uri_user_state|].
  split; [exact match_uri_open_orders|].
  split; [exact match_uri_no_match|].
  split; [exact (match_uri_l2_book "BTC" eq_refl)|].
  split; [exact (match_uri_user_state "0xABC" eq_refl)|].
  apply match_uri_no_match; [discriminate | | |];
    intros seg _ H; simpl in H; discriminate H.
Qed.

(** ** Reads of the user resources *)

Section Reads.

Variable cfg : Config.
Variable PythonShell_run : list string -> Exn + list string.
Variable JSON_parse : option string -> Exn + JValue.

Local Abbreviation readResource := (ReadResource cfg PythonShell_run JSON_parse).

Lemma read_user_state (address : string) (t : Trace) :
  is_segment address = true ->
  readResource (user_state_uri address) t
  = match decodeURIComponent address with
    | None => (inl uri_malformed, t)
    | Some _ =>
        (match bridge_result PythonShell_run JSON_parse (user_data_argv cfg "user_state") with
         | inl e => inl e
         | inr data =>
             inr [ {| contents_uri := user_state_uri address;
                      contents_mimeType := "application/json";
                      contents_text := JSON_stringify_2 data |} ]
         end, (t ++ [user_data_argv cfg "user_state"])%list)
    end.
Proof.
  intros Hseg. rewrite ReadResource_run. unfold user_state_uri.
  rewrite (match_uri_user_state address Hseg). unfold decoded.
  destruct (decodeURIComponent address); reflexivity.
Qed.

Lemma read_open_orders (address : string) (t : Trace) :
  is_segment address = true ->
  readResource (open_orders_uri address) t
  = match decodeURIComponent address with
    | None => (inl uri_malformed, t)
    | Some _ =>
        (match bridge_result PythonShell_run JSON_parse (user_data_argv cfg "open_orders") with
         | inl e => inl e
         | inr data =>
             inr [ {| contents_uri := open_orders_uri address;
                      contents_mimeType := "application/json";
                      contents_text := JSON_stringify_2 data |} ]
         end, (t ++ [user_data_argv cfg "open_orders"])%list)
    end.
Proof.
  intros Hseg. rewrite ReadResource_run. unfold open_orders_uri.
  rewrite (match_uri_open_orders address Hseg). unfold decoded.
  destruct (decodeURIComponent address); reflexivity.
Qed.

(** C9 (amended): the address of hyperliquid://user/{address}/state and of
    hyperliquid://user/{address}/open-orders is never part of a bridge
    invocation. For any two URIs of one of these templates whose address
    segments are both well-formed percent-encodings, the handler spawns the
    same single invocation, command user-data with the fixed configuration
    flags and the data-type flag alone, and returns the same text. A URI
    whose address segment is not a well-formed percent-encoding makes
    decodeURIComponent throw, and then nothing is spawned at all. *)
Theorem C9_address_not_forwarded :
  (forall a1 a2,
      is_segment a1 = true -> is_segment a2 = true ->
      decodeURIComponent a1 <> None -> decodeURIComponent a2 <> None ->
      spawned (readResource (user_state_uri a1))
      = [ "user-data" :: fixed_words cfg ++ ["--data-type"; "user_state"] ]
      /\ spawned (readResource (user_state_uri a2))
         = spawned (readResource (user_state_uri a1))
      /\ texts (outcome (readResource (user_state_uri a2)))
         = texts (outcome (readResource (user_state_uri a1)))
      /\ spawned (readResource (open_orders_uri a1))
         = [ "user-data" :: fixed_words cfg ++ ["--data-type"; "open_orders"] ]
      /\ spawned (readResource (open_orders_uri a2))
         = spawned (readResource (open_orders_uri a1))
      /\ texts (outcome (readResource (open_orders_uri a2)))
         = texts (outcome (readResource (open_orders_uri a1))))
  /\ (forall a,
        is_segment a = true -> decodeURIComponent a = None ->
        readResource (user_state_uri a) [] = (inl uri_malformed, [])
        /\ readResource (open_orders_uri a) [] = (inl uri_malformed, [])).
Proof.
  split.
  - intros a1 a2 H1 H2 D1 D2. unfold spawned, outcome.
    rewrite !(read_user_state _ _ H1), !(read_user_state _ _ H2).
    rewrite !(read_open_orders _ _ H1), !(read_open_orders _ _ H2).
    destruct (decodeURIComponent a1); [|contradiction].
    destruct (decodeURIComponent a2); [|contradiction].
    cbn [fst snd app].
    repeat split;
      match goal with
      | |- texts _ = texts _ =>
          destruct (bridge_result PythonShell_run JSON_parse _); reflexivity
      end.
  - intros a Hseg Hbad.
    rewrite (read_user_state _ _ Hseg), (read_open_orders _ _ Hseg), Hbad. auto.
Qed.

End Reads.

(** ** Flag names *)










(** ** The catalogs *)

(** C10: listTools returns the six descriptors get_market_data,
    get_user_data, place_limit_order, place_market_order, cancel_order and
    update_leverage, in this order, with the required fields of each; it and
    listResources return the same sequence on any two calls, whatever the
    state and also with a tool call in between, and change nothing. *)
Theorem C10_catalogs_fixed :
  map (fun d => (name d, required (inputSchema d))) tools
  = [ ("get_market_data", ["dataType"]);
      ("get_user_data", ["dataType"]);
      ("place_limit_order", ["coin"; "isBuy"; "size"; "price"; "timeInForce"]);
      ("place_market_order", ["coin"; "isBuy"; "size"]);
      ("cancel_order", ["coin"]);
      ("update_leverage", ["coin"; "leverage"]) ]
  /\ (forall t, ListTools t = (inr tools, t))
  /\ (forall t, ListResources t = (inr resources, t))
  /\ (forall t1 t2, fst (ListTools t1) = fst (ListTools t2))
  /\ (forall t1 t2, fst (ListResources t1) = fst (ListResources t2))
  /\ (forall t1 t2, fst (ListResourceTemplates t1) = fst (ListResourceTemplates t2))
  /\ (forall t,
        (first <- ListTools ;; second <- ListTools ;; ret (first, second)) t
        = (inr (tools, tools), t))
  /\ (forall t,
        (first <- ListResources ;; second <- ListResources ;; ret (first, second)) t
        = (inr (resources, resources), t))
  /\ (forall cfg run parse tool args t,
        fst ((first <- ListTools ;;
              _ <- CallTool cfg run parse tool args ;;
              second <- ListTools ;;
              ret (first, second)) t)
        = inr (tools, tools)).
Proof.
  split; [reflexivity|].
  split; [intros t; reflexivity|].
  split; [intros t; reflexivity|].
  split; [intros t1 t2; reflexivity|].
  split; [intros t1 t2; reflexivity|].
  split; [intros t1 t2; reflexivity|].
  split; [intros t; reflexivity|].
  split; [intros t; reflexivity|].
  intros cfg run parse tool args t.
  unfold bind, ListTools, ret.
  destruct (CallTool_returns cfg run parse tool args t) as (r & t' & ->).
  reflexivity.
Qed.

(** ** The handlers on concrete requests *)

(** C1, at a request for the tool foo. *)
Lemma C1_witness :
  find_tool "foo" = None
  /\ CallTool sample_config sample_run sample_parse "foo" (Some []) []
     = (inr (text_result
               (Some "Error executing tool foo: MCP error -32601: Unknown tool: foo")
               (Some true)), []).
Proof.
  split; [reflexivity|].
  exact (C1_unknown_tool_is_caught sample_config sample_run sample_parse
           "foo" (Some []) [] eq_refl).
Defined.

(** C2 as stated fails: a cancel_order call that holds a coin and neither
    orderId nor clientOrderId is not rejected; the bridge is spawned with
    the coin flag alone. A get_market_data call without its required
    dataType spawns the bridge too. *)
Lemma C2_counterexample :
  let args := [("coin", JStr "BTC")] in
  get args "orderId" = JUndefined
  /\ get args "clientOrderId" = JUndefined
  /\ CallTool sample_config sample_run sample_parse "cancel_order" (Some args) []
     = (inr (text_result (Some status_ok_text) None),
        [ ["cancel-order"; "--secret-key"; "0xkey"; "--network"; "mainnet";
           "--coin"; "BTC"] ])
  /\ mem "dataType" (required (inputSchema get_market_data_tool)) = true
  /\ spawned (CallTool sample_config sample_run sample_parse
                "get_market_data" (Some []))
     = [ ["market-data"; "--secret-key"; "0xkey"; "--network"; "mainnet"] ].
Proof. repeat split. Qed.

Lemma C2_witness :
  find_tool "cancel_order" = Some cancel_order_tool
  /\ CallTool sample_config sample_run sample_parse "cancel_order" None []
     = (inr (text_result
               (Some "Error executing tool cancel_order: Arguments are required")
               (Some true)), [])
  /\ (exists command fields,
        dispatch "cancel_order" (Some [("coin", JObj [("toString", JNum 1)])])
        = inr (command, fields)
        /\ match options_args sample_config command fields with
           | Some argv =>
               spawned (CallTool sample_config sample_run sample_parse "cancel_order"
                          (Some [("coin", JObj [("toString", JNum 1)])]))
               = [argv]
           | None =>
               CallTool sample_config sample_run sample_parse "cancel_order"
                 (Some [("coin", JObj [("toString", JNum 1)])]) []
               = (inr (text_result
                         (Some ("Error executing tool " ++ "cancel_order"
                                ++ ": Cannot convert object to primitive value"))
                         (Some true)), [])
           end)
  /\ convertible [("coin", JStr "BTC")] = true
  /\ exists argv,
       spawned (CallTool sample_config sample_run sample_parse "cancel_order"
                  (Some [("coin", JStr "BTC")]))
       = [argv].
Proof.
  pose proof (C2_only_arguments_object_checked sample_config sample_run
                sample_parse "cancel_order" cancel_order_tool eq_refl)
    as (Hnone & Hsome & Hone).
  split; [reflexivity|].
  split; [exact (Hnone [])|].
  split; [exact (Hsome [("coin", JObj [("toString", JNum 1)])])|].
  split; [reflexivity|].
  exact (Hone [("coin", JStr "BTC")] eq_refl).
Defined.

(** C3 as stated fails: reduceOnly is an optional field of place_limit_order,
    the arguments do not hold it, and the bridge invocation carries
    --reduce-only false. *)
Lemma C3_counterexample :
  optional_field place_limit_order_tool "reduceOnly" = true
  /\ mem "reduceOnly" (keys limit_order_args) = false
  /\ (exists flags,
        call_flags "place_limit_order" (Some limit_order_args) = Some flags
        /\ In ("--reduce-only", "false") flags)
  /\ spawned (CallTool sample_config sample_run sample_parse
                "place_limit_order" (Some limit_order_args))
     = [ ["place-order"; "--secret-key"; "0xkey"; "--network"; "mainnet";
          "--coin"; "BTC"; "--is-buy"; "true"; "--size"; "0.1";
          "--price"; "50000"; "--order-type";
          "{" ++ dq ++ "limit" ++ dq ++ ":{" ++ dq ++ "tif" ++ dq ++ ":"
          ++ dq ++ "Gtc" ++ dq ++ "}}";
          "--reduce-only"; "false"] ].
Proof.
  split; [reflexivity|]. split; [reflexivity|]. split; [|reflexivity].
  eexists. split; [reflexivity|]. do 5 right. left. reflexivity.
Qed.

Lemma C3_witness :
  let args := [("dataType", JStr "l2_snapshot"); ("coin", JStr "BTC")] in
  let flags := [("--data-type", "l2_snapshot"); ("--coin", "BTC")] in
  spawned (CallTool sample_config sample_run sample_parse
             "get_market_data" (Some args))
  = [ "market-data" :: fixed_words sample_config ++ flatten flags ]
  /\ ("startTime" <> "reduceOnly" -> "startTime" <> "isCross" ->
      ~ In (flag_name (bridge_key "startTime")) (map fst flags))
  /\ ("startTime" = "reduceOnly" -> In ("--reduce-only", "false") flags)
  /\ ("startTime" = "isCross" -> In ("--is-cross", "true") flags).
Proof.
  intros args flags.
  apply (C3_absent_optional_fields sample_config sample_run sample_parse
           get_market_data_tool "startTime" args "market-data"
           [ ("dataType", JStr "l2_snapshot"); ("coin", JStr "BTC");
             ("interval", JUndefined); ("startTime", JUndefined);
             ("endTime", JUndefined) ]
           flags).
  - left. reflexivity.
  - reflexivity.
  - simpl. intros [H|[H|[]]]; discriminate H.
  - reflexivity.
  - reflexivity.
Defined.

(** C4 as stated fails: the bridge result has an [error] field, an empty
    string (or [null]), and it comes back as JSON text with no error flag. *)
Lemma C4_counterexample :
  CallTool sample_config sample_run empty_error_parse
    "get_market_data" (Some [("dataType", JStr "all_mids")]) []
  = (inr (text_result
            (Some ("{" ++ nl ++ "  " ++ dq ++ "error" ++ dq ++ ": " ++ dq ++ dq
                   ++ nl ++ "}"))
            None),
     [ ["market-data"; "--secret-key"; "0xkey"; "--network"; "mainnet";
        "--data-type"; "all_mids"] ])
  /\ fst (CallTool sample_config sample_run null_error_parse
            "get_market_data" (Some [("dataType", JStr "all_mids")]) [])
     = inr (text_result
              (Some ("{" ++ nl ++ "  " ++ dq ++ "status" ++ dq ++ ": " ++ dq ++ "ok"
                     ++ dq ++ "," ++ nl ++ "  " ++ dq ++ "error" ++ dq ++ ": null"
                     ++ nl ++ "}"))
              None).
Proof. split; reflexivity. Qed.

Lemma C4_witness :
  fst (CallTool sample_config sample_run sample_parse "get_user_data" None [])
  = inr (text_result
           (Some "Error executing tool get_user_data: Arguments are required")
           (Some true))
  /\ CallTool sample_config sample_run sample_parse "get_market_data"
       (Some [("dataType", JObj [("toString", JStr "x")])]) []
     = (inr (text_result
               (Some ("Error executing tool " ++ "get_market_data"
                      ++ ": Cannot convert object to primitive value"))
               (Some true)), [])
  /\ fst (CallTool sample_config sample_run
            (fun _ => inr (JObj [("error", JStr "Insufficient margin")]))
            "get_market_data" (Some [("dataType", JStr "all_mids")]) [])
     = inr (text_result (Some ("Error: " ++ "Insufficient margin")) (Some true))
  /\ fst (CallTool sample_config sample_run empty_error_parse
            "get_market_data" (Some [("dataType", JStr "all_mids")]) [])
     = inr (text_result
              (JSON_stringify_2 (JObj [("error", JStr EmptyString)])) None).
Proof.
  split; [|split; [|split]].
  - exact (proj1 (C4_tool_call_responses sample_config sample_run sample_parse
                    "get_user_data" None [])
             arguments_required eq_refl).
  - exact (proj1 (proj2 (C4_tool_call_responses sample_config sample_run
                           sample_parse "get_market_data"
                           (Some [("dataType", JObj [("toString", JStr "x")])]) []))
             ("market-data",
              [ ("dataType", JObj [("toString", JStr "x")]);
                ("coin", JUndefined); ("interval", JUndefined);
                ("startTime", JUndefined); ("endTime", JUndefined) ])
             eq_refl eq_refl).
  - exact (proj1 (proj2 (proj2
             (C4_tool_call_responses sample_config sample_run
                (fun _ => inr (JObj [("error", JStr "Insufficient margin")]))
                "get_market_data" (Some [("dataType", JStr "all_mids")]) [])))
             (JObj [("error", JStr "Insufficient margin")])
             (JStr "Insufficient margin") "Insufficient margin"
             eq_refl eq_refl eq_refl eq_refl).
  - exact (proj1 (proj2 (proj2 (proj2
             (C4_tool_call_responses sample_config sample_run empty_error_parse
                "get_market_data" (Some [("dataType", JStr "all_mids")]) []))))
             (JObj [("error", JStr EmptyString)]) (JStr EmptyString)
             eq_refl eq_refl eq_refl).
Defined.

Lemma C6_witness :
  match_uri "hyperliquid://market/l2-book/BTC%2FUSD" = inr (L2Book "BTC/USD")
  /\ match_uri "hyperliquid://user/0xABC/open-orders" = inr (OpenOrders "0xABC")
  /\ match_uri "hyperliquid://market/unknown"
     = inl (McpError InvalidRequest "Invalid URI format: hyperliquid://market/unknown").
Proof.
  destruct C6_resource_matching
    as (_ & _ & _ & Hbook & _ & Horders & Hnone & _).
  split; [exact (Hbook "BTC%2FUSD" eq_refl)|].
  split; [exact (Horders "0xABC" eq_refl)|].
  apply (Hnone "hyperliquid://market/unknown");
    [discriminate | | |]; intros seg _ H; simpl in H; discriminate H.
Defined.

Lemma C7_witness :
  let argv := ["cancel-order"; "--secret-key"; "0xkey"; "--network"; "mainnet";
               "--coin"; "BTC"] in
  In argv (spawned (CallTool sample_config sample_run sample_parse
                      "cancel_order" (Some [("coin", JStr "BTC")])))
  /\ (exists command fields flags,
        toFlags fields = Some flags
        /\ argv = ([command; "--secret-key"; "0xkey"; "--network"; "mainnet"]
                   ++ [] ++ flatten flags)%list)
  /\ snd (runBridgeScript sample_config sample_run sample_parse
            "market-data" [("coin", JStr "ETH")] [])
     = [ ["market-data"; "--secret-key"; "0xkey"; "--network"; "mainnet";
          "--coin"; "ETH"] ].
Proof.
  intros argv.
  assert (Hin : In argv (spawned (CallTool sample_config sample_run sample_parse
                                    "cancel_order" (Some [("coin", JStr "BTC")]))))
    by (left; reflexivity).
  pose proof (C7_fixed_flags_first sample_config sample_run sample_parse)
    as (Hrun & _ & Htool & _).
  split; [exact Hin|]. split.
  - exact (Htool "cancel_order" (Some [("coin", JStr "BTC")]) argv Hin).
  - exact (Hrun "market-data" [("coin", JStr "ETH")] [] [("--coin", "ETH")] eq_refl).
Defined.



(** C9 as stated fails: of two URIs that differ in the address segment only,
    one spawns the user-data invocation and the other, whose segment is a
    lone percent sign, throws before anything is spawned. *)
Lemma C9_counterexample :
  is_segment "0xABC" = true
  /\ is_segment "%" = true
  /\ match_uri "hyperliquid://user/%/state" = inl uri_malformed
  /\ spawned (ReadResource sample_config sample_run sample_parse
                "hyperliquid://user/0xABC/state")
     = [ ["user-data"; "--secret-key"; "0xkey"; "--network"; "mainnet";
          "--data-type"; "user_state"] ]
  /\ ReadResource sample_config sample_run sample_parse
       "hyperliquid://user/%/state" []
     = (inl (Err URIError "URI malformed"), []).
Proof. repeat split. Qed.

Lemma C9_witness :
  spawned (ReadResource sample_config sample_run sample_parse
             (user_state_uri "0xABC"))
  = [ ["user-data"; "--secret-key"; "0xkey"; "--network"; "mainnet";
       "--data-type"; "user_state"] ]
  /\ spawned (ReadResource sample_config sample_run sample_parse
                (user_state_uri "0xDEF%20"))
     = spawned (ReadResource sample_config sample_run sample_parse
                  (user_state_uri "0xABC"))
  /\ ReadResource sample_config sample_run sample_parse (open_orders_uri "%4") []
     = (inl uri_malformed, []).
Proof.
  assert (D1 : decodeURIComponent "0xABC" <> None) by (vm_compute; discriminate).
  assert (D2 : decodeURIComponent "0xDEF%20" <> None) by (vm_compute; discriminate).
  destruct (proj1 (C9_address_not_forwarded sample_config sample_run sample_parse)
              "0xABC" "0xDEF%20" eq_refl eq_refl D1 D2)
    as (Hfirst & Hsame & _).
  split; [exact Hfirst|]. split; [exact Hsame|].
  exact (proj2 (proj2 (C9_address_not_forwarded sample_config sample_run sample_parse)
                  "%4" eq_refl eq_refl)).
Defined.

(** Small runs of the model. *)
Example stringify_nested :
  JSON_stringify_2 (JObj [("a", JArr [JNum 1; JStr "x"]); ("b", JObj [])])
  = Some ("{" ++ nl ++ "  " ++ dq ++ "a" ++ dq ++ ": [" ++ nl ++ "    1," ++ nl
          ++ "    " ++ dq ++ "x" ++ dq ++ nl ++ "  ]," ++ nl ++ "  " ++ dq ++ "b"
          ++ dq ++ ": {}" ++ nl ++ "}").
Proof. reflexivity. Qed.

Example to_string_array :
  ToString (JArr [JNum (-12); JNull; JStr "x"; JNum 0]) = Some "-12,,x,0"
  /\ ToString (JObj [("a", JNum 1)]) = Some "[object Object]"
  /\ ToString (JObj [("toString", JNum 1)]) = None
  /\ ToString (JArr [JNum 1; JObj [("toString", JNum 1)]]) = None.
Proof. repeat split. Qed.

Example decode_escapes :
  decodeURIComponent "%41%2fb" = Some "A/b"
  /\ String.length "%E2%82%AC" = 9
  /\ option_map String.length (decodeURIComponent "%E2%82%AC") = Some 3
  /\ decodeURIComponent "%E2%82" = None
  /\ decodeURIComponent "%E2%82x" = None.
Proof. repeat split. Qed.

Example decode_overlong : decodeURIComponent "%C0%80" = None.
Proof. reflexivity. Qed.

Example group_gives_back :
  re_match [Lit "a"; Seg; Lit "bc"] "axbcbc" = Some ["xbc"].
Proof. reflexivity. Qed.

Example config_defaults :
  load_config {| HYPERLIQUID_SECRET_KEY := Some "0xkey";
                 HYPERLIQUID_ACCOUNT_ADDRESS := None;
                 HYPERLIQUID_NETWORK := None |}
  = Some sample_config
  /\ load_config {| HYPERLIQUID_SECRET_KEY := None;
                    HYPERLIQUID_ACCOUNT_ADDRESS := None;
                    HYPERLIQUID_NETWORK := Some "testnet" |} = None.
Proof. split; reflexivity. Qed.

(** * Further properties of the adapter *)

(** ** Flag names are read back *)

Lemma upper_lower_char (c : ascii) :
  is_upper c = true -> upper_char (lower_char c) = c /\ Ascii.eqb (lower_char c) "-" = false.
Proof.
  destruct c as [[] [] [] [] [] [] [] []]; intros H;
    first [discriminate H | split; reflexivity].
Qed.

Lemma lower_char_not_upper (c : ascii) : is_upper c = false -> lower_char c = c.
Proof. unfold lower_char. intros ->. reflexivity. Qed.

Lemma unhyphenate_flag (key : string) :
  hyphen_free key = true -> unhyphenate (toLowerCase (hyphenate key)) = key.
Proof.
  induction key as [|c key IH]; [reflexivity|].
  cbn [hyphen_free hyphenate]. intros H.
  apply andb_prop in H. destruct H as [Hc Hkey]. apply negb_true_iff in Hc.
  destruct (is_upper c) eqn:Hup.
  - cbn [toLowerCase unhyphenate].
    change (lower_char "-") with "-"%char. rewrite Ascii.eqb_refl.
    destruct (upper_lower_char c Hup) as [-> _]. rewrite (IH Hkey). reflexivity.
  - cbn [toLowerCase unhyphenate].
    rewrite (lower_char_not_upper c Hup), Hc, (IH Hkey). reflexivity.
Qed.

(** X1: two distinct field names of ASCII characters without a hyphen are
    never marshalled to the same flag: the name is read back from its flag,
    each hyphen and the letter after it standing for the capital letter. *)
Theorem X1_flag_name_injective (key1 key2 : string) :
  is_ascii key1 = true -> is_ascii key2 = true ->
  hyphen_free key1 = true -> hyphen_free key2 = true ->
  key1 <> key2 ->
  flag_name key1 <> flag_name key2
  /\ unhyphenate (toLowerCase (hyphenate key1)) = key1
  /\ unhyphenate (toLowerCase (hyphenate key2)) = key2.
Proof.
  intros _ _ H1 H2 Hkeys.
  split; [|split; apply unhyphenate_flag; assumption].
  intros Hflag. apply Hkeys. unfold flag_name in Hflag.
  apply append_inj_l in Hflag.
  rewrite <- (unhyphenate_flag key1 H1), <- (unhyphenate_flag key2 H2), Hflag.
  reflexivity.
Qed.

Lemma X1_witness :
  flag_name "startTime" <> flag_name "endTime"
  /\ unhyphenate "start-time" = "startTime"
  /\ unhyphenate "end-time" = "endTime".
Proof.
  apply (X1_flag_name_injective "startTime" "endTime");
    first [reflexivity | discriminate].
Defined.

(** A hyphen in a name is what makes two names meet. *)
Example flag_name_collision : flag_name "aB" = flag_name "a-b".
Proof. reflexivity. Qed.

(** ** What the order tools put on the command line *)

(** The fields of a marshalled list that can give a flag, one by one. *)
Ltac flag_fields Hflags H :=
  apply (proj1 (toFlags_In _ _ _ _ Hflags)) in H;
  let key := fresh "key" in
  let v := fresh "v" in
  let Hfield := fresh "Hfield" in
  let Hdef := fresh "Hdef" in
  let Hflag := fresh "Hflag" in
  let Hvalue := fresh "Hvalue" in
  destruct H as (key & v & Hfield & Hdef & Hflag & Hvalue);
  simpl in Hfield;
  repeat (destruct Hfield as [Hfield|Hfield];
          [inversion Hfield; subst key v; clear Hfield;
           first [ vm_compute in Hflag; discriminate Hflag | idtac ] |]);
  try contradiction.

Lemma ToString_true_false (v : JValue) :
  ToString (true_false v) = Some (true_false_text v).
Proof. unfold true_false, true_false_text. destruct (truthy v); reflexivity. Qed.

(** X2: both order tools always pass --is-buy, and its value is decided by
    the truthiness of the isBuy argument alone: a call without isBuy is
    marshalled as --is-buy false (a sell), and the string false, being a
    non-empty string, as --is-buy true. ([flags] are the flags of the
    invocation, made when the marshalling of the other fields succeeds.) *)
Theorem X2_is_buy_by_truthiness
    (tool : string) (args : Obj) (flags : list (string * string)) (value : string) :
  tool = "place_limit_order" \/ tool = "place_market_order" ->
  call_flags tool (Some args) = Some flags ->
  (In ("--is-buy", value) flags <-> value = true_false_text (get args "isBuy"))
  /\ (~ In "isBuy" (keys args) -> In ("--is-buy", "false") flags)
  /\ (get args "isBuy" = JStr "false" -> In ("--is-buy", "true") flags).
Proof.
  intros Htool Hflags.
  assert (Hiff : forall text,
             In ("--is-buy", text) flags
             <-> text = true_false_text (get args "isBuy")).
  { intros text. destruct Htool as [-> | ->]; unfold call_flags in Hflags;
      cbn [dispatch String.eqb Ascii.eqb Bool.eqb with_args snd] in Hflags; split.
    - intros H. flag_fields Hflags H. rewrite ToString_true_false in Hvalue.
      inversion Hvalue. reflexivity.
    - intros ->. apply (proj2 (toFlags_In _ _ _ _ Hflags)).
      exists "isBuy", (true_false (get args "isBuy")).
      rewrite ToString_true_false. simpl. tauto.
    - intros H. flag_fields Hflags H. rewrite ToString_true_false in Hvalue.
      inversion Hvalue. reflexivity.
    - intros ->. apply (proj2 (toFlags_In _ _ _ _ Hflags)).
      exists "isBuy", (true_false (get args "isBuy")).
      rewrite ToString_true_false. simpl. tauto. }
  split; [apply Hiff|]. split.
  - intros Habsent. apply Hiff. rewrite (get_absent _ _ Habsent). reflexivity.
  - intros Hfalse. apply Hiff. rewrite Hfalse. reflexivity.
Qed.

Lemma X2_witness :
  call_flags "place_market_order" (Some [("coin", JStr "ETH"); ("size", JNum 1)])
  = Some [("--coin", "ETH"); ("--is-buy", "false"); ("--size", "1")]
  /\ In ("--is-buy", "false") [("--coin", "ETH"); ("--is-buy", "false"); ("--size", "1")]
  /\ call_flags "place_limit_order" (Some [("isBuy", JStr "false")])
     = Some [("--is-buy", "true"); ("--order-type", order_type_text JUndefined);
             ("--reduce-only", "false")]
  /\ In ("--is-buy", "true")
        [("--is-buy", "true"); ("--order-type", order_type_text JUndefined);
         ("--reduce-only", "false")].
Proof.
  split; [reflexivity|]. split; [|split; [reflexivity|]].
  - apply (X2_is_buy_by_truthiness "place_market_order"
             [("coin", JStr "ETH"); ("size", JNum 1)]
             [("--coin", "ETH"); ("--is-buy", "false"); ("--size", "1")]
             "false" (or_intror eq_refl) eq_refl).
    simpl. intros [H|[H|[]]]; discriminate H.
  - apply (X2_is_buy_by_truthiness "place_limit_order"
             [("isBuy", JStr "false")]
             [("--is-buy", "true"); ("--order-type", order_type_text JUndefined);
              ("--reduce-only", "false")]
             "true" (or_introl eq_refl) eq_refl).
    reflexivity.
Defined.

(** X3: a place_limit_order call always passes --order-type, the JSON text
    of an object whose limit member holds the time in force. A timeInForce
    that is the string s gives the member tif with s as a JSON string; a call
    without timeInForce still passes the flag, with an empty limit object.
    ([flags] are the flags of the invocation, made when the marshalling of
    the other fields succeeds.) *)
Theorem X3_order_type_always_passed
    (args : Obj) (flags : list (string * string)) (value : string) :
  call_flags "place_limit_order" (Some args) = Some flags ->
  (In ("--order-type", value) flags
   <-> value = order_type_text (get args "timeInForce"))
  /\ (forall s, get args "timeInForce" = JStr s ->
        In ("--order-type",
            "{" ++ dq ++ "limit" ++ dq ++ ":{" ++ dq ++ "tif" ++ dq ++ ":"
            ++ Quote s ++ "}}") flags)
  /\ (~ In "timeInForce" (keys args) ->
      In ("--order-type", "{" ++ dq ++ "limit" ++ dq ++ ":{}}") flags).
Proof.
  intros Hflags.
  assert (Hiff : forall text,
             In ("--order-type", text) flags
             <-> text = order_type_text (get args "timeInForce")).
  { intros text. unfold call_flags in Hflags.
    cbn [dispatch String.eqb Ascii.eqb Bool.eqb with_args snd] in Hflags.
    rewrite order_type_value in Hflags. split.
    - intros H. flag_fields Hflags H. inversion Hvalue. reflexivity.
    - intros ->. apply (proj2 (toFlags_In _ _ _ _ Hflags)).
      exists "orderType", (JStr (order_type_text (get args "timeInForce"))).
      simpl. tauto. }
  split; [apply Hiff|]. split.
  - intros s Hs. apply Hiff. rewrite Hs. unfold order_type_text, JSON_stringify.
    cbn [serialize]. rewrite !append_assoc. reflexivity.
  - intros Habsent. apply Hiff. rewrite (get_absent _ _ Habsent). reflexivity.
Qed.

Lemma X3_witness :
  call_flags "place_limit_order" (Some [("coin", JStr "BTC")])
  = Some [("--coin", "BTC"); ("--is-buy", "false");
          ("--order-type", order_type_text JUndefined); ("--reduce-only", "false")]
  /\ In ("--order-type",
      "{" ++ dq ++ "limit" ++ dq ++ ":{" ++ dq ++ "tif" ++ dq ++ ":"
      ++ Quote "Ioc" ++ "}}")
     [("--is-buy", "false"); ("--order-type", order_type_text (JStr "Ioc"));
      ("--reduce-only", "false")]
  /\ In ("--order-type", "{" ++ dq ++ "limit" ++ dq ++ ":{}}")
        [("--coin", "BTC"); ("--is-buy", "false");
         ("--order-type", order_type_text JUndefined); ("--reduce-only", "false")].
Proof.
  split; [reflexivity|]. split.
  - exact (proj1 (proj2 (X3_order_type_always_passed
                           [("timeInForce", JStr "Ioc")]
                           [("--is-buy", "false");
                            ("--order-type", order_type_text (JStr "Ioc"));
                            ("--reduce-only", "false")]
                           EmptyString eq_refl))
             "Ioc" eq_refl).
  - apply (proj2 (proj2 (X3_order_type_always_passed
                           [("coin", JStr "BTC")]
                           [("--coin", "BTC"); ("--is-buy", "false");
                            ("--order-type", order_type_text JUndefined);
                            ("--reduce-only", "false")]
                           EmptyString eq_refl))).
    simpl. intros [H|[]]. discriminate H.
Defined.

(** X4: update_leverage always passes --is-cross. The value is true when the
    call has no isCross, and otherwise follows the truthiness of isCross, so
    that an isCross of null is passed as false although an absent one is
    passed as true. ([flags] are the flags of the invocation, made when the
    marshalling of the other fields succeeds.) *)
Theorem X4_is_cross_default
    (args : Obj) (flags : list (string * string)) (value : string) :
  call_flags "update_leverage" (Some args) = Some flags ->
  (In ("--is-cross", value) flags
   <-> value = if is_undefined (get args "isCross") then "true"
               else true_false_text (get args "isCross"))
  /\ (~ In "isCross" (keys args) -> In ("--is-cross", "true") flags)
  /\ (get args "isCross" = JNull -> In ("--is-cross", "false") flags).
Proof.
  intros Hflags.
  assert (Hiff : forall text,
             In ("--is-cross", text) flags
             <-> text = if is_undefined (get args "isCross") then "true"
                        else true_false_text (get args "isCross")).
  { intros text. unfold call_flags in Hflags.
    cbn [dispatch String.eqb Ascii.eqb Bool.eqb with_args snd] in Hflags. split.
    - intros H. flag_fields Hflags H.
      destruct (is_undefined (get args "isCross")).
      + inversion Hvalue. reflexivity.
      + rewrite ToString_true_false in Hvalue. inversion Hvalue. reflexivity.
    - intros ->. apply (proj2 (toFlags_In _ _ _ _ Hflags)).
      exists "isCross",
        (if is_undefined (get args "isCross") then JStr "true"
         else true_false (get args "isCross")).
      split; [simpl; tauto|].
      destruct (is_undefined (get args "isCross")).
      + repeat split.
      + rewrite ToString_true_false. repeat split. }
  split; [apply Hiff|]. split.
  - intros Habsent. apply Hiff. rewrite (get_absent _ _ Habsent). reflexivity.
  - intros Hnull. apply Hiff. rewrite Hnull. reflexivity.
Qed.

Lemma X4_witness :
  call_flags "update_leverage" (Some [("coin", JStr "ETH"); ("leverage", JNum 10)])
  = Some [("--coin", "ETH"); ("--leverage", "10"); ("--is-cross", "true")]
  /\ In ("--is-cross", "true")
        [("--coin", "ETH"); ("--leverage", "10"); ("--is-cross", "true")]
  /\ call_flags "update_leverage" (Some [("isCross", JNull)])
     = Some [("--is-cross", "false")]
  /\ In ("--is-cross", "false") [("--is-cross", "false")].
Proof.
  split; [reflexivity|]. split; [|split; [reflexivity|]].
  - apply (proj1 (proj2 (X4_is_cross_default
                           [("coin", JStr "ETH"); ("leverage", JNum 10)]
                           [("--coin", "ETH"); ("--leverage", "10");
                            ("--is-cross", "true")]
                           EmptyString eq_refl))).
    simpl. intros [H|[H|[]]]; discriminate H.
  - exact (proj2 (proj2 (X4_is_cross_default [("isCross", JNull)]
                           [("--is-cross", "false")] EmptyString eq_refl))
             eq_refl).
Defined.

(** ** The catalog and the switch *)

(** X5: an argument the schema of a tool does not declare is never looked
    at: two calls of a catalog tool whose arguments agree on the declared
    properties are dispatched to the same command with the same fields. *)
Theorem X5_undeclared_arguments_ignored
    (d : ToolDescriptor) (args1 args2 : Obj) :
  In d tools ->
  (forall field, In field (map fst (properties (inputSchema d))) ->
                 get args1 field = get args2 field) ->
  dispatch (name d) (Some args1) = dispatch (name d) (Some args2)
  /\ (forall cfg run parse t,
        CallTool cfg run parse (name d) (Some args1) t
        = CallTool cfg run parse (name d) (Some args2) t).
Proof.
  intros Hd Hsame.
  assert (Hdispatch : dispatch (name d) (Some args1) = dispatch (name d) (Some args2)).
  { revert Hd Hsame. unfold tools. simpl.
    intros [<-|[<-|[<-|[<-|[<-|[<-|[]]]]]]] Hsame; simpl in Hsame;
      cbn [dispatch name String.eqb Ascii.eqb Bool.eqb with_args
           get_market_data_tool get_user_data_tool place_limit_order_tool
           place_market_order_tool cancel_order_tool update_leverage_tool];
      repeat match goal with
      | |- context [get args1 ?f] =>
          rewrite (Hsame f) by (simpl; tauto)
      end;
      reflexivity. }
  split; [exact Hdispatch|].
  intros cfg run parse t. unfold CallTool. rewrite Hdispatch. reflexivity.
Qed.

Lemma X5_witness :
  dispatch "cancel_order" (Some [("coin", JStr "BTC"); ("secretKey", JStr "x")])
  = dispatch "cancel_order" (Some [("coin", JStr "BTC")]).
Proof.
  apply (fun Hd Hsame =>
           proj1 (X5_undeclared_arguments_ignored cancel_order_tool
                    [("coin", JStr "BTC"); ("secretKey", JStr "x")]
                    [("coin", JStr "BTC")] Hd Hsame)).
  - simpl. tauto.
  - simpl. intros field [<-|[<-|[<-|[]]]]; reflexivity.
Defined.

Lemma dispatch_known (d : ToolDescriptor) (args : option Obj) :
  In d tools ->
  dispatch (name d) args = inl arguments_required
  \/ exists command fields,
       dispatch (name d) args = inr (command, fields) /\ In command commands.
Proof.
  unfold tools. simpl.
  intros [<-|[<-|[<-|[<-|[<-|[<-|[]]]]]]]; destruct args as [args|];
    try (left; reflexivity);
    right; eexists; eexists; (split; [reflexivity|]); simpl; tauto.
Qed.

Lemma find_tool_cases (tool : string) :
  find_tool tool = None \/ exists d, In d tools /\ name d = tool.
Proof.
  destruct (find_tool tool) as [d|] eqn:H; [right|left; reflexivity].
  exists d. apply find_tool_Some, H.
Qed.

(** X6: the switch and the advertised catalog name the same tools. A call is
    answered Unknown tool exactly when its name is not the name of a
    descriptor listTools returns; a call of a listed tool either lacks its
    arguments object or is dispatched to one of the six bridge commands. *)
Theorem X6_switch_agrees_with_catalog (tool : string) (args : option Obj) :
  (dispatch tool args = inl (McpError MethodNotFound ("Unknown tool: " ++ tool))
   <-> ~ In tool (map name tools))
  /\ (In tool (map name tools) ->
      dispatch tool args = inl arguments_required
      \/ exists command fields,
           dispatch tool args = inr (command, fields) /\ In command commands).
Proof.
  split.
  - split.
    + intros Hunknown Hin. apply in_map_iff in Hin.
      destruct Hin as [d [<- Hd]].
      destruct (dispatch_known d args Hd) as [H|(c & f & H & _)];
        rewrite H in Hunknown; discriminate Hunknown.
    + intros Hnot. destruct (find_tool_cases tool) as [Hnone|[d [Hd <-]]].
      * rewrite (find_tool_None tool Hnone). reflexivity.
      * exfalso. apply Hnot. apply in_map. exact Hd.
  - intros Hin. apply in_map_iff in Hin. destruct Hin as [d [<- Hd]].
    apply dispatch_known, Hd.
Qed.

Lemma X6_witness :
  dispatch "get_user_data" None = inl arguments_required
  \/ exists command fields,
       dispatch "get_user_data" None = inr (command, fields) /\ In command commands.
Proof.
  apply (proj2 (X6_switch_agrees_with_catalog "get_user_data" None)).
  simpl. tauto.
Defined.

(** ** Processes and results of a request *)

Section Requests.

Variable cfg : Config.
Variable PythonShell_run : list string -> Exn + list string.
Variable JSON_parse : option string -> Exn + JValue.

Local Abbreviation callTool := (CallTool cfg PythonShell_run JSON_parse).
Local Abbreviation readResource := (ReadResource cfg PythonShell_run JSON_parse).
Local Abbreviation bridgeResult := (bridge_result PythonShell_run JSON_parse).

Lemma CallTool_spawned (tool : string) (args : option Obj) (t : Trace) :
  snd (callTool tool args t)
  = (t ++ match dispatch tool args with
          | inl _ => []
          | inr call =>
              match options_args cfg (fst call) (snd call) with
              | Some argv => [argv]
              | None => []
              end
          end)%list.
Proof.
  destruct (dispatch tool args) as [e|call] eqn:Hcall.
  - rewrite (CallTool_throw _ _ _ _ _ _ t Hcall). cbn [snd].
    rewrite app_nil_r. reflexivity.
  - apply CallTool_spawn, Hcall.
Qed.

Lemma ReadResource_trace (u : string) (t : Trace) :
  snd (readResource u t)
  = (t ++ match match_uri u with
          | inl _ => []
          | inr m => [resource_argv cfg m]
          end)%list.
Proof.
  rewrite ReadResource_run. destruct (match_uri u) as [e|m]; cbn [snd].
  - rewrite app_nil_r. reflexivity.
  - reflexivity.
Qed.

(** X7: whatever the request, the first word of a command line the adapter
    spawns is one of the six bridge commands; a resource read spawns
    market-data or user-data only. *)
Theorem X7_spawned_commands (argv : list string) :
  (forall tool args,
      In argv (spawned (callTool tool args)) ->
      exists command words, argv = command :: words /\ In command commands)
  /\ (forall u,
        In argv (spawned (readResource u)) ->
        exists command words,
          argv = command :: words
          /\ (command = "market-data" \/ command = "user-data")).
Proof.
  split.
  - intros tool args Hin. unfold spawned in Hin. rewrite CallTool_spawned in Hin.
    destruct (dispatch tool args) as [e|[command fields]] eqn:Hcall;
      [destruct Hin|].
    cbn [fst snd] in Hin. unfold options_args in Hin.
    destruct (flatMap flag_words fields) as [words|]; [|destruct Hin].
    destruct Hin as [<-|[]]. exists command. eexists. split; [reflexivity|].
    destruct (find_tool_cases tool) as [Hnone|[d [Hd <-]]].
    + rewrite (find_tool_None tool Hnone) in Hcall. discriminate Hcall.
    + destruct (dispatch_known d args Hd) as [H|(c & f & H & Hc)];
        rewrite H in Hcall; [discriminate Hcall|].
      inversion Hcall; subst. exact Hc.
  - intros u Hin. unfold spawned in Hin. rewrite ReadResource_trace in Hin.
    destruct (match_uri u) as [e|m]; [destruct Hin|].
    destruct Hin as [<-|[]]. exists (fst (resource_call m)). eexists.
    split; [reflexivity|]. destruct m; simpl; tauto.
Qed.

(** X8: a matched resource read spawns one bridge process and does not catch
    its failure: a failure of the process or of the parse of its output is
    thrown as it is, where the call-tool handler turns the same failure into
    a tool result. On success the read returns exactly one content entry,
    with the URI as requested, the JSON MIME type and the bridge result as
    JSON text indented by two spaces. The marshalling of a read never
    throws: the values it passes are strings. *)
Theorem X8_read_resource_result (u : string) (m : ResourceMatch) (t : Trace) :
  match_uri u = inr m ->
  let argv := resource_argv cfg m in
  options_args cfg (fst (resource_call m)) (snd (resource_call m)) = Some argv
  /\ (forall e, bridgeResult argv = inl e ->
        readResource u t = (inl e, (t ++ [argv])%list))
  /\ (forall data, bridgeResult argv = inr data ->
        readResource u t
        = (inr [ {| contents_uri := u;
                    contents_mimeType := "application/json";
                    contents_text := JSON_stringify_2 data |} ],
           (t ++ [argv])%list))
  /\ (forall tool args call words e,
        dispatch tool args = inr call ->
        options_args cfg (fst call) (snd call) = Some words ->
        bridgeResult words = inl e ->
        callTool tool args t
        = (inr (text_result
                  (Some ("Error executing tool " ++ tool ++ ": " ++ error_text e))
                  (Some true)),
           (t ++ [words])%list)).
Proof.
  intros Hm argv. subst argv. split; [apply resource_options|]. split; [|split].
  - intros e He. rewrite ReadResource_run, Hm. cbn zeta. rewrite He. reflexivity.
  - intros data Hdata. rewrite ReadResource_run, Hm. cbn zeta. rewrite Hdata.
    reflexivity.
  - intros tool args call words e Hcall Hwords He.
    rewrite CallTool_invoke, invoke_run, Hcall, Hwords, He. reflexivity.
Qed.

(** X9: a request spawns at most one bridge process, appended to what was
    spawned before. A tool call spawns none exactly when dispatch throws
    (unknown tool, or no arguments object) or the marshalling throws (a
    value passed has no string form); a resource read spawns none exactly
    when the URI is not matched or its segment does not decode. *)
Theorem X9_one_process_per_request (tool : string) (args : option Obj)
    (u : string) (t : Trace) :
  snd (callTool tool args t) = (t ++ spawned (callTool tool args))%list
  /\ length (spawned (callTool tool args)) <= 1
  /\ (spawned (callTool tool args) = []
      <-> (exists e, dispatch tool args = inl e)
          \/ (exists call,
                dispatch tool args = inr call
                /\ options_args cfg (fst call) (snd call) = None))
  /\ snd (readResource u t) = (t ++ spawned (readResource u))%list
  /\ length (spawned (readResource u)) <= 1
  /\ (spawned (readResource u) = [] <-> exists e, match_uri u = inl e).
Proof.
  unfold spawned. rewrite !CallTool_spawned, !ReadResource_trace. cbn [app].
  split; [reflexivity|].
  split.
  { destruct (dispatch tool args) as [e|call]; [cbn; lia|].
    destruct (options_args cfg (fst call) (snd call)); cbn; lia. }
  split.
  { destruct (dispatch tool args) as [e|call].
    - split; [intros _; left; eauto|reflexivity].
    - destruct (options_args cfg (fst call) (snd call)) as [argv|] eqn:Hargv.
      + split; [intros H; discriminate H|].
        intros [[e He]|(call' & Hcall' & Hnone)]; [discriminate He|].
        inversion Hcall'; subst call'. rewrite Hargv in Hnone. discriminate Hnone.
      + split; [|reflexivity]. intros _. right. exists call. auto. }
  split; [reflexivity|].
  destruct (match_uri u) as [e|m]; cbn [length].
  - split; [lia|]. split; [intros _; eauto|reflexivity].
  - split; [lia|]. split; [intros H; discriminate H|intros [e He]; discriminate He].
Qed.

End Requests.

Lemma X7_witness :
  exists command words,
    ["cancel-order"; "--secret-key"; "0xkey"; "--network"; "mainnet"; "--coin"; "BTC"]
    = command :: words
    /\ In command commands.
Proof.
  apply (proj1 (X7_spawned_commands sample_config sample_run sample_parse
                  ["cancel-order"; "--secret-key"; "0xkey"; "--network"; "mainnet";
                   "--coin"; "BTC"])
           "cancel_order" (Some [("coin", JStr "BTC")])).
  left. reflexivity.
Defined.

Lemma X8_witness :
  ReadResource sample_config (fun _ => inl (Err LibraryError "exit code 1")) sample_parse
    "hyperliquid://market/all-mids" []
  = (inl (Err LibraryError "exit code 1"),
     [ ["market-data"; "--secret-key"; "0xkey"; "--network"; "mainnet";
        "--data-type"; "all_mids"] ]).
Proof.
  exact (proj1 (proj2 (X8_read_resource_result sample_config
                         (fun _ => inl (Err LibraryError "exit code 1")) sample_parse
                         "hyperliquid://market/all-mids" AllMids [] eq_refl))
           (Err LibraryError "exit code 1") eq_refl).
Defined.

(** X9, at a call whose coin is an object with an own toString property:
    dispatch passes it on and the marshalling throws, so nothing is spawned. *)
Lemma X9_witness :
  spawned (CallTool sample_config sample_run sample_parse "cancel_order"
             (Some [("coin", JObj [("toString", JNum 1)])]))
  = [].
Proof.
  apply (proj2 (proj1 (proj2 (proj2
           (X9_one_process_per_request sample_config sample_run sample_parse
              "cancel_order" (Some [("coin", JObj [("toString", JNum 1)])])
              EmptyString []))))).
  right. eexists. split; reflexivity.
Defined.

(** ** The routes of the read-resource handler *)

Lemma segment_unique (a b s t : string) :
  is_segment a = true -> is_segment b = true ->
  a ++ String "/" s = b ++ String "/" t -> a = b /\ s = t.
Proof.
  intros Ha Hb Heq.
  assert (Hta : take (run_length (a ++ String "/" s)) (a ++ String "/" s) = a).
  { destruct (segment_run a (String "/" s) Ha eq_refl) as [-> _].
    apply take_length_app. }
  assert (Htb : take (run_length (b ++ String "/" t)) (b ++ String "/" t) = b).
  { destruct (segment_run b (String "/" t) Hb eq_refl) as [-> _].
    apply take_length_app. }
  rewrite Heq in Hta. rewrite Hta in Htb. subst b.
  split; [reflexivity|].
  apply append_inj_l in Heq. inversion Heq. reflexivity.
Qed.

(** X10: no URI is matched by two routes of the read-resource handler: the
    literal URI matches none of the three patterns, and a URI that matches
    one pattern matches no other. The order of the tests decides nothing. *)
Theorem X10_routes_disjoint (u : string) :
  (u = "hyperliquid://market/all-mids" ->
   re_match re_l2_book u = None /\ re_match re_user_state u = None
   /\ re_match re_open_orders u = None)
  /\ (re_match re_l2_book u <> None ->
      re_match re_user_state u = None /\ re_match re_open_orders u = None)
  /\ (re_match re_user_state u <> None -> re_match re_open_orders u = None).
Proof.
  split; [intros ->; repeat split|]. split.
  - intros Hbook. destruct (re_match re_l2_book u) as [caps|] eqn:Hm;
      [|contradiction]. clear Hbook.
    apply l2_book_matches in Hm. destruct Hm as (seg & _ & -> & _).
    split; reflexivity.
  - intros Hstate. destruct (re_match re_user_state u) as [caps|] eqn:Hm;
      [|contradiction]. clear Hstate.
    apply suffix_matches in Hm. destruct Hm as (seg & Hseg & -> & _).
    destruct (re_match re_open_orders _) as [caps'|] eqn:Hm'; [|reflexivity].
    apply suffix_matches in Hm'. destruct Hm' as (seg' & Hseg' & Heq & _).
    apply append_inj_l in Heq.
    destruct (segment_unique _ _ _ _ Hseg Hseg' Heq) as [_ Hsuffix].
    discriminate Hsuffix.
Qed.

Lemma X10_witness :
  re_match re_user_state "hyperliquid://user/0xABC/state" <> None
  /\ re_match re_open_orders "hyperliquid://user/0xABC/state" = None.
Proof.
  assert (H : re_match re_user_state "hyperliquid://user/0xABC/state" <> None)
    by (vm_compute; discriminate).
  split; [exact H|].
  exact (proj2 (proj2 (X10_routes_disjoint "hyperliquid://user/0xABC/state")) H).
Defined.

(** * The settings writer *)

Lemma get_set_same (o : Obj) (key : string) (value : JValue) :
  get (set o key value) key = value.
Proof.
  induction o as [|[k v] o IH]; simpl.
  - rewrite String.eqb_refl. reflexivity.
  - destruct (String.eqb k key) eqn:Hk; simpl; rewrite Hk; [reflexivity|exact IH].
Qed.

Lemma get_set_other (o : Obj) (key other : string) (value : JValue) :
  other <> key -> get (set o key value) other = get o other.
Proof.
  intros Hother. induction o as [|[k v] o IH]; simpl.
  - destruct (String.eqb_spec key other) as [->|_]; [contradiction|reflexivity].
  - destruct (String.eqb_spec k key) as [->|Hk]; simpl.
    + destruct (String.eqb_spec key other) as [->|_]; [contradiction|reflexivity].
    + destruct (String.eqb k other); [reflexivity|exact IH].
Qed.

Lemma set_set (o : Obj) (key : string) (v1 v2 : JValue) :
  set (set o key v1) key v2 = set o key v2.
Proof.
  induction o as [|[k v] o IH]; simpl.
  - rewrite String.eqb_refl. reflexivity.
  - destruct (String.eqb k key) eqn:Hk; simpl; rewrite Hk; [reflexivity|].
    rewrite IH. reflexivity.
Qed.

Lemma keys_set (o : Obj) (key : string) (value : JValue) :
  keys (set o key value)
  = if mem key (keys o) then keys o else (keys o ++ [key])%list.
Proof.
  unfold keys, mem. induction o as [|[k v] o IH]; simpl; [reflexivity|].
  rewrite (String.eqb_sym key k).
  destruct (String.eqb k key) eqn:Hk; simpl; [reflexivity|].
  rewrite IH. destruct (existsb (String.eqb key) (map fst o)); reflexivity.
Qed.

Lemma set_present (o : Obj) (key : string) (value : JValue) :
  get o key = value -> value <> JUndefined -> set o key value = o.
Proof.
  induction o as [|[k v] o IH]; simpl; intros Hget Hdef.
  - symmetry in Hget. contradiction.
  - destruct (String.eqb k key) eqn:Hk.
    + subst v. reflexivity.
    + rewrite (IH Hget Hdef). reflexivity.
Qed.

(** X11: when the settings are an object whose mcpServers is an object, or
    absent, or falsy, the script puts its entry under mcpServers.hyperliquid
    and changes nothing else: every other server entry and every other
    top-level setting reads as before, and the keys keep their order, a new
    key going last. *)
Theorem X11_register_keeps_other_settings
    (props servers : Obj) (entry : JValue) :
  js_or (get props "mcpServers") (JObj []) = JObj servers ->
  exists props' servers',
    register (JObj props) entry = Some (JObj props')
    /\ get props' "mcpServers" = JObj servers'
    /\ get servers' "hyperliquid" = entry
    /\ (forall k, k <> "hyperliquid" -> get servers' k = get servers k)
    /\ (forall k, k <> "mcpServers" -> get props' k = get props k)
    /\ keys servers'
       = (if mem "hyperliquid" (keys servers) then keys servers
          else (keys servers ++ ["hyperliquid"])%list)
    /\ keys props'
       = (if mem "mcpServers" (keys props) then keys props
          else (keys props ++ ["mcpServers"])%list).
Proof.
  intros Hservers.
  exists (set props "mcpServers" (JObj (set servers "hyperliquid" entry))),
         (set servers "hyperliquid" entry).
  unfold register. rewrite Hservers.
  split; [reflexivity|].
  split; [apply get_set_same|].
  split; [apply get_set_same|].
  split; [intros k Hk; apply get_set_other, Hk|].
  split; [intros k Hk; apply get_set_other, Hk|].
  split; apply keys_set.
Qed.

Lemma X11_witness :
  exists props' servers',
    register (JObj [ ("theme", JStr "dark");
                     ("mcpServers", JObj [("github", JObj [("command", JStr "gh")])]) ])
             (JStr "entry")
    = Some (JObj props')
    /\ get props' "mcpServers" = JObj servers'
    /\ get servers' "hyperliquid" = JStr "entry"
    /\ (forall k, k <> "hyperliquid" ->
                  get servers' k = get [("github", JObj [("command", JStr "gh")])] k)
    /\ (forall k, k <> "mcpServers" ->
                  get props' k
                  = get [ ("theme", JStr "dark");
                          ("mcpServers", JObj [("github", JObj [("command", JStr "gh")])]) ] k)
    /\ keys servers' = ["github"; "hyperliquid"]
    /\ keys props' = ["theme"; "mcpServers"].
Proof.
  exact (X11_register_keeps_other_settings
           [ ("theme", JStr "dark");
             ("mcpServers", JObj [("github", JObj [("command", JStr "gh")])]) ]
           [("github", JObj [("command", JStr "gh")])]
           (JStr "entry") eq_refl).
Defined.

(** X12: registering is idempotent: run on the settings it produced, with the
    same entry, the script produces the same settings again. *)
Theorem X12_register_idempotent (mcpSettings entry result : JValue) :
  register mcpSettings entry = Some result ->
  register result entry = Some result.
Proof.
  unfold register. destruct mcpSettings as [| | | | | |items|props];
    try discriminate.
  - intros H. inversion H. reflexivity.
  - destruct (js_or (get props "mcpServers") (JObj [])) as [| | | | | |items|servers];
      try discriminate; intros H; inversion H; subst result; clear H;
      rewrite get_set_same; unfold js_or; cbn [truthy];
      rewrite !set_set; reflexivity.
Qed.

Lemma X12_witness :
  register (JObj [("mcpServers", JObj [("hyperliquid", JStr "entry")])]) (JStr "entry")
  = Some (JObj [("mcpServers", JObj [("hyperliquid", JStr "entry")])]).
Proof.
  exact (X12_register_idempotent (JObj []) (JStr "entry")
           (JObj [("mcpServers", JObj [("hyperliquid", JStr "entry")])]) eq_refl).
Defined.

(** X13: settings that are an array, or whose mcpServers is an array, take
    the entry as a property that JSON does not serialize: the script leaves
    them as they were and they do not hold the entry. Settings that are null,
    a number, a string or a boolean, or whose mcpServers is a truthy value of
    one of these kinds, end the script in an uncaught TypeError. *)
Theorem X13_register_edge_cases (mcpSettings entry : JValue) :
  ((exists items, mcpSettings = JArr items)
   \/ (exists props items,
         mcpSettings = JObj props /\ get props "mcpServers" = JArr items) ->
   register mcpSettings entry = Some mcpSettings /\ ~ registered mcpSettings entry)
  /\ ((forall items, mcpSettings <> JArr items)
      -> (forall props, mcpSettings <> JObj props)
      -> register mcpSettings entry = None)
  /\ (forall props,
        mcpSettings = JObj props ->
        truthy (get props "mcpServers") = true ->
        (forall items, get props "mcpServers" <> JArr items) ->
        (forall servers, get props "mcpServers" <> JObj servers) ->
        register mcpSettings entry = None).
Proof.
  split; [|split].
  - intros [[items ->]|(props & items & -> & Hservers)].
    + split; [reflexivity|]. intros (props & servers & H & _). discriminate H.
    + split.
      * unfold register, js_or. rewrite Hservers. cbn [truthy].
        rewrite set_present; [reflexivity|exact Hservers|discriminate].
      * intros (props' & servers & H & Hget & _). inversion H; subst props'.
        rewrite Hservers in Hget. discriminate Hget.
  - intros Harr Hobj. destruct mcpSettings; try reflexivity.
    + exfalso. exact (Harr items eq_refl).
    + exfalso. exact (Hobj props eq_refl).
  - intros props -> Htruthy Harr Hobj. unfold register, js_or. rewrite Htruthy.
    destruct (get props "mcpServers"); try reflexivity.
    + exfalso. exact (Harr items eq_refl).
    + exfalso. exact (Hobj props0 eq_refl).
Qed.

Lemma X13_witness :
  (register (JArr [JNum 1]) (JStr "entry") = Some (JArr [JNum 1])
   /\ ~ registered (JArr [JNum 1]) (JStr "entry"))
  /\ register JNull (JStr "entry") = None
  /\ register (JObj [("mcpServers", JStr "none")]) (JStr "entry") = None.
Proof.
  split; [|split].
  - apply (proj1 (X13_register_edge_cases (JArr [JNum 1]) (JStr "entry"))).
    left. exists [JNum 1]. reflexivity.
  - apply (proj1 (proj2 (X13_register_edge_cases JNull (JStr "entry"))));
      intros x H; discriminate H.
  - apply (proj2 (proj2 (X13_register_edge_cases
                           (JObj [("mcpServers", JStr "none")]) (JStr "entry")))
             [("mcpServers", JStr "none")] eq_refl eq_refl);
      intros x H; discriminate H.
Defined.

Section ConfigureRuns.

Variable JSON_parse : option string -> Exn + JValue.
Variable serverPath : string.

Local Abbreviation configure := (configure_mcp JSON_parse serverPath).
Local Abbreviation entry_of := (script_entry serverPath).

Lemma register_serialized (mcpSettings entry result : JValue) :
  register mcpSettings entry = Some result -> JSON_stringify_2 result <> None.
Proof.
  unfold register. destruct mcpSettings; try discriminate.
  - intros H. inversion H. discriminate.
  - destruct (js_or (get props "mcpServers") (JObj [])); try discriminate;
      intros H; inversion H; discriminate.
Qed.

(** X14: when the settings file is missing, cannot be read, or holds text
    that does not parse, the script does not stop: it writes settings that
    hold the hyperliquid entry and nothing else, so whatever an unparsable
    file held is replaced; it exits 0 when the write succeeds and 1 when it
    fails. *)
Theorem X14_unparsable_settings_replaced
    (env : Env) (file : FileState) (write_ok : bool) :
  truthy (env_value (HYPERLIQUID_SECRET_KEY env)) = true ->
  file = NoDirectory true \/ file = Missing \/ file = Unreadable
  \/ (exists text e, file = Content text /\ JSON_parse (Some text) = inl e) ->
  configure env file write_ok
  = {| exit := if write_ok then Exit0 else Exit1;
       write := JSON_stringify_2
                  (JObj [("mcpServers", JObj [("hyperliquid", entry_of env)])]) |}.
Proof.
  intros Hkey Hfile. unfold configure_mcp. rewrite Hkey. cbn [negb].
  destruct Hfile as [->|[->|[->|(text & e & -> & Hparse)]]];
    cbn [read_settings]; try rewrite Hparse; reflexivity.
Qed.

(** X15: the script exits 0 exactly when the secret key is set and not
    empty, the directory of the settings file exists or can be created, the
    settings take the entry without a TypeError, and the write succeeds.
    Without a secret key it exits 1 before it reads or writes anything, and
    it never calls writeFileSync unless the first three conditions hold. *)
Theorem X15_script_exit (env : Env) (file : FileState) (write_ok : bool) :
  let run := configure env file write_ok in
  let ready :=
    truthy (env_value (HYPERLIQUID_SECRET_KEY env)) = true
    /\ file <> NoDirectory false
    /\ exists mcpSettings,
         register (read_settings JSON_parse file) (entry_of env) = Some mcpSettings in
  (truthy (env_value (HYPERLIQUID_SECRET_KEY env)) = false ->
   run = {| exit := Exit1; write := None |})
  /\ (exit run = Exit0 <-> ready /\ write_ok = true)
  /\ (write run <> None <-> ready).
Proof.
  intros run ready. subst run ready.
  assert (Hdir : file = NoDirectory false \/ file <> NoDirectory false).
  { destruct file as [[|]| | |text]; first [left; reflexivity | right; discriminate]. }
  unfold configure_mcp.
  destruct (truthy (env_value (HYPERLIQUID_SECRET_KEY env))) eqn:Hkey; cbn [negb].
  - split; [discriminate|].
    destruct Hdir as [->|Hdir].
    { cbn [exit write]. split; split.
      - intros H. discriminate H.
      - intros [(_ & H & _) _]. exfalso. apply H. reflexivity.
      - intros H. contradiction.
      - intros (_ & H & _). exfalso. apply H. reflexivity. }
    replace (match file with
             | NoDirectory false => {| exit := Uncaught; write := None |}
             | _ =>
                 match register (read_settings JSON_parse file) (entry_of env) with
                 | Some mcpSettings =>
                     {| exit := if write_ok then Exit0 else Exit1;
                        write := JSON_stringify_2 mcpSettings |}
                 | None => {| exit := Uncaught; write := None |}
                 end
             end)
      with (match register (read_settings JSON_parse file) (entry_of env) with
            | Some mcpSettings =>
                {| exit := if write_ok then Exit0 else Exit1;
                   write := JSON_stringify_2 mcpSettings |}
            | None => {| exit := Uncaught; write := None |}
            end)
      by (destruct file as [[|]| | |text]; try reflexivity;
          exfalso; apply Hdir; reflexivity).
    destruct (register (read_settings JSON_parse file) (entry_of env))
      as [mcpSettings|] eqn:Hreg; cbn [exit write].
    + pose proof (register_serialized _ _ _ Hreg) as Hser.
      split; split.
      * intros H. destruct write_ok; [|discriminate H]. eauto 6.
      * intros [_ ->]. reflexivity.
      * intros _. eauto 6.
      * intros _. exact Hser.
    + split; split.
      * intros H. discriminate H.
      * intros [(_ & _ & [s Hs]) _]. discriminate Hs.
      * intros H. contradiction.
      * intros (_ & _ & [s Hs]). discriminate Hs.
  - split; [reflexivity|]. cbn [exit write]. split; split.
    + intros H. discriminate H.
    + intros [(H & _) _]. discriminate H.
    + intros H. contradiction.
    + intros (H & _). discriminate H.
Qed.

End ConfigureRuns.

Lemma X14_witness :
  configure_mcp (fun _ => inl (Err LibraryError "Unexpected token"))
    "/opt/server/build/index.js"
    {| HYPERLIQUID_SECRET_KEY := Some "0xkey";
       HYPERLIQUID_ACCOUNT_ADDRESS := None;
       HYPERLIQUID_NETWORK := None |}
    (Content "{ not json") true
  = {| exit := Exit0;
       write := JSON_stringify_2
                  (JObj [("mcpServers",
                          JObj [("hyperliquid",
                                 hyperliquid_entry "/opt/server/build/index.js"
                                   (JStr "0xkey") JUndefined (JStr "mainnet"))])]) |}.
Proof.
  apply (X14_unparsable_settings_replaced
           (fun _ => inl (Err LibraryError "Unexpected token"))
           "/opt/server/build/index.js"
           {| HYPERLIQUID_SECRET_KEY := Some "0xkey";
              HYPERLIQUID_ACCOUNT_ADDRESS := None;
              HYPERLIQUID_NETWORK := None |}
           (Content "{ not json") true).
  - reflexivity.
  - right. right. right. exists "{ not json", (Err LibraryError "Unexpected token").
    split; reflexivity.
Defined.

Lemma X15_witness :
  configure_mcp sample_parse "/opt/server/build/index.js"
    {| HYPERLIQUID_SECRET_KEY := Some EmptyString;
       HYPERLIQUID_ACCOUNT_ADDRESS := Some "0xabc";
       HYPERLIQUID_NETWORK := Some "testnet" |}
    Missing true
  = {| exit := Exit1; write := None |}.
Proof.
  exact (proj1 (X15_script_exit sample_parse "/opt/server/build/index.js"
                  {| HYPERLIQUID_SECRET_KEY := Some EmptyString;
                     HYPERLIQUID_ACCOUNT_ADDRESS := Some "0xabc";
                     HYPERLIQUID_NETWORK := Some "testnet" |}
                  Missing true) eq_refl).
Defined.

(** X16: the server the script registers starts whenever the script got past
    its own secret-key check, and it behaves as a server started directly in
    the script's environment: same secret key, same network, and the same
    command line for every bridge invocation. The empty account address the
    script writes for an unset one adds no --account-address flag. *)
Theorem X16_registered_server_starts (serverPath : string) (env : Env) :
  (truthy (env_value (HYPERLIQUID_SECRET_KEY env)) = true
   <-> load_config env <> None)
  /\ (forall cfg,
        load_config env = Some cfg ->
        exists cfg',
          load_config (launch_env (script_entry serverPath env)) = Some cfg'
          /\ SECRET_KEY cfg' = SECRET_KEY cfg
          /\ NETWORK cfg' = NETWORK cfg
          /\ forall command args,
               options_args cfg' command args = options_args cfg command args).
Proof.
  destruct env as [[[|c key]|] address network]; unfold load_config;
    cbn [HYPERLIQUID_SECRET_KEY HYPERLIQUID_ACCOUNT_ADDRESS HYPERLIQUID_NETWORK
         env_value truthy].
  - split; [split; [discriminate|intros H; contradiction]|discriminate].
  - split; [split; [discriminate|reflexivity]|].
    intros cfg Hcfg. inversion Hcfg; subst cfg; clear Hcfg.
    destruct address as [[|a address]|]; destruct network as [[|n network]|];
      eexists; (split; [reflexivity|]); repeat split.
  - split; [split; [discriminate|intros H; contradiction]|discriminate].
Qed.

Lemma X16_witness :
  exists cfg',
    load_config (launch_env (script_entry "/opt/server/build/index.js"
                               {| HYPERLIQUID_SECRET_KEY := Some "0xkey";
                                  HYPERLIQUID_ACCOUNT_ADDRESS := None;
                                  HYPERLIQUID_NETWORK := None |}))
    = Some cfg'
    /\ SECRET_KEY cfg' = "0xkey"
    /\ NETWORK cfg' = "mainnet"
    /\ forall command args,
         options_args cfg' command args = options_args sample_config command args.
Proof.
  exact (proj2 (X16_registered_server_starts "/opt/server/build/index.js"
                  {| HYPERLIQUID_SECRET_KEY := Some "0xkey";
                     HYPERLIQUID_ACCOUNT_ADDRESS := None;
                     HYPERLIQUID_NETWORK := None |})
           sample_config eq_refl).
Defined.

(** * The dashboard server *)

(** X17: a request to /api/authenticate whose secretKey is missing or falsy
    is answered 400 with the error Secret key is required, and then no .env
    file is written and no configuration script is spawned. With a truthy
    secret key the handler first builds the text of the .env file; when one
    of the three values has no string form the template literal throws, and
    then too nothing is written, nothing is spawned and the handler sends no
    answer. When the text is built it is written, and the script is spawned
    only when the write succeeded. The answer is 200 exactly when the secret
    key is truthy, the text was built, the write succeeded and the script
    closed with code 0; every other close, a signal included, gives 500. *)
Theorem X17_authenticate_outcomes
    (request_body : Obj) (write_ok : bool) (code : option Z) :
  let secretKey := get request_body "secretKey" in
  let content := envContent secretKey (get request_body "accountAddress")
                   (get request_body "network") in
  let run := authenticate request_body write_ok code in
  let ok := {| status := 200;
               body := JObj [ ("success", JBool true);
                              ("message", JStr "Authentication successful") ] |} in
  (truthy secretKey = false ->
   run = {| env_file := None;
            script_spawned := false;
            response := Some {| status := 400;
                                body := JObj [("error", JStr "Secret key is required")] |} |})
  /\ (truthy secretKey = true -> content = None ->
      run = {| env_file := None; script_spawned := false; response := None |})
  /\ (forall text,
        truthy secretKey = true -> content = Some text ->
        script_spawned run = write_ok /\ env_file run = Some text)
  /\ (response run = Some ok
      <-> truthy secretKey = true /\ content <> None
          /\ write_ok = true /\ code = Some 0%Z)
  /\ (truthy secretKey = true -> content <> None -> write_ok = true ->
      code <> Some 0%Z ->
      response run
      = Some {| status := 500;
                body := JObj [("error", JStr "Failed to configure MCP server")] |}).
Proof.
  intros secretKey content run ok. subst run ok. unfold authenticate.
  fold secretKey. fold content.
  destruct (truthy secretKey) eqn:Hkey; cbn [negb].
  - split; [discriminate|].
    destruct content as [text|] eqn:Hcontent.
    + split; [intros _ H; discriminate H|].
      destruct write_ok; cbn [negb script_spawned env_file response].
      * split; [intros text' _ H; inversion H; split; reflexivity|]. split.
        -- split.
           ++ intros H. split; [reflexivity|]. split; [discriminate|].
              split; [reflexivity|].
              destruct code as [[|p|p]|]; first [reflexivity | discriminate H].
           ++ intros (_ & _ & _ & ->). reflexivity.
        -- intros _ _ _ Hcode. destruct code as [[|p|p]|]; try reflexivity.
           exfalso. apply Hcode. reflexivity.
      * split; [intros text' _ H; inversion H; split; reflexivity|]. split.
        -- split; [intros H; discriminate H|intros (_ & _ & H & _); discriminate H].
        -- intros _ _ H. discriminate H.
    + split; [reflexivity|]. split; [intros text _ H; discriminate H|].
      cbn [response]. split.
      * split; [intros H; discriminate H|].
        intros (_ & H & _). exfalso. apply H. reflexivity.
      * intros _ H. exfalso. apply H. reflexivity.
  - split; [reflexivity|]. split; [discriminate|]. split; [discriminate|].
    cbn [response]. split.
    + split; [intros H; discriminate H|intros [H _]; discriminate H].
    + discriminate.
Qed.

(** X17 at three requests: no secret key; a secret key and a script ended
    by a signal; an account address that is an object with an own toString
    property. *)
Lemma X17_witness :
  authenticate [("accountAddress", JStr "0xabc"); ("network", JStr "testnet")]
    true (Some 0%Z)
  = {| env_file := None;
       script_spawned := false;
       response := Some {| status := 400;
                           body := JObj [("error", JStr "Secret key is required")] |} |}
  /\ response (authenticate [("secretKey", JStr "0xkey")] true None)
     = Some {| status := 500;
               body := JObj [("error", JStr "Failed to configure MCP server")] |}
  /\ authenticate [ ("secretKey", JStr "0xkey");
                    ("accountAddress", JObj [("toString", JNum 1)]) ]
       true (Some 0%Z)
     = {| env_file := None; script_spawned := false; response := None |}.
Proof.
  split; [|split].
  - exact (proj1 (X17_authenticate_outcomes
                    [("accountAddress", JStr "0xabc"); ("network", JStr "testnet")]
                    true (Some 0%Z)) eq_refl).
  - apply (proj2 (proj2 (proj2 (proj2 (X17_authenticate_outcomes
                                         [("secretKey", JStr "0xkey")] true None))))).
    + reflexivity.
    + discriminate.
    + reflexivity.
    + discriminate.
  - exact (proj1 (proj2 (X17_authenticate_outcomes
                           [ ("secretKey", JStr "0xkey");
                             ("accountAddress", JObj [("toString", JNum 1)]) ]
                           true (Some 0%Z))) eq_refl eq_refl).
Defined.

Lemma split_lines_cons (s : string) : exists l ls, split_lines s = l :: ls.
Proof.
  induction s as [|c s [l [ls IH]]]; simpl; [eauto|].
  destruct (Ascii.eqb c "010"); [eauto|]. rewrite IH. eauto.
Qed.

Lemma split_lines_line (a rest : string) :
  one_line a = true -> split_lines (a ++ nl ++ rest) = a :: split_lines rest.
Proof.
  induction a as [|c a IH]; simpl; intros H; [reflexivity|].
  apply andb_prop in H. destruct H as [Hc Ha]. apply negb_true_iff in Hc.
  rewrite Hc. unfold nl in IH. simpl in IH. rewrite (IH Ha). reflexivity.
Qed.

Lemma one_line_app (a b : string) :
  one_line a = true -> one_line b = true -> one_line (a ++ b) = true.
Proof.
  induction a as [|c a IH]; simpl; intros Ha Hb; [exact Hb|].
  apply andb_prop in Ha. destruct Ha as [Hc Ha]. rewrite Hc. simpl. auto.
Qed.

(** X18: when the three values have string forms, the .env text is built
    and has one line per setting, in the order secret key, account address,
    network, and ends with a line feed, provided none of the three forms
    holds a line feed; a missing or falsy account address is written as an
    empty value and a missing or falsy network as mainnet, a truthy one by
    its own string form. *)
Theorem X18_env_file_lines
    (secretKey accountAddress network : JValue) (key address net : string) :
  ToString secretKey = Some key ->
  ToString (js_or accountAddress (JStr EmptyString)) = Some address ->
  ToString (js_or network (JStr "mainnet")) = Some net ->
  one_line key = true -> one_line address = true -> one_line net = true ->
  (exists text,
      envContent secretKey accountAddress network = Some text
      /\ split_lines text
         = [ "HYPERLIQUID_SECRET_KEY=" ++ key;
             "HYPERLIQUID_ACCOUNT_ADDRESS=" ++ address;
             "HYPERLIQUID_NETWORK=" ++ net;
             EmptyString ])
  /\ (if truthy accountAddress then ToString accountAddress = Some address
      else address = EmptyString)
  /\ (if truthy network then ToString network = Some net else net = "mainnet").
Proof.
  intros Hk Ha Hn Hkey Haddress Hnetwork. split; [|split].
  - unfold envContent. rewrite Hk, Ha, Hn. eexists. split; [reflexivity|].
    rewrite <- (append_assoc "HYPERLIQUID_SECRET_KEY=" key).
    rewrite split_lines_line by (apply one_line_app; [reflexivity|exact Hkey]).
    rewrite <- (append_assoc "HYPERLIQUID_ACCOUNT_ADDRESS=").
    rewrite split_lines_line by (apply one_line_app; [reflexivity|exact Haddress]).
    rewrite <- (append_assoc "HYPERLIQUID_NETWORK=").
    pose proof (split_lines_line ("HYPERLIQUID_NETWORK=" ++ net) EmptyString
                  (one_line_app "HYPERLIQUID_NETWORK=" _ eq_refl Hnetwork)) as Hlast.
    rewrite append_empty in Hlast. rewrite Hlast. reflexivity.
  - unfold js_or in Ha. destruct (truthy accountAddress); [exact Ha|].
    inversion Ha. reflexivity.
  - unfold js_or in Hn. destruct (truthy network); [exact Hn|].
    inversion Hn. reflexivity.
Qed.

Lemma X18_witness :
  exists text,
    envContent (JStr "0xkey") JUndefined (JStr "testnet") = Some text
    /\ split_lines text
       = [ "HYPERLIQUID_SECRET_KEY=0xkey"; "HYPERLIQUID_ACCOUNT_ADDRESS=";
           "HYPERLIQUID_NETWORK=testnet"; EmptyString ].
Proof.
  exact (proj1 (X18_env_file_lines (JStr "0xkey") JUndefined (JStr "testnet")
                  "0xkey" EmptyString "testnet"
                  eq_refl eq_refl eq_refl eq_refl eq_refl eq_refl)).
Defined.

(** * The bridge output and the two ways to the bridge *)

Section BridgeOutput.

Variable cfg : Config.
Variable JSON_parse : option string -> Exn + JValue.

Lemma bridge_result_first_line
    (run1 run2 : list string -> Exn + list string) (argv : list string) :
  first_line (run1 argv) = first_line (run2 argv) ->
  bridge_result run1 JSON_parse argv = bridge_result run2 JSON_parse argv.
Proof.
  unfold bridge_result, first_line.
  destruct (run1 argv) as [e1|lines1]; destruct (run2 argv) as [e2|lines2];
    intros H; try discriminate H.
  - inversion H. reflexivity.
  - assert (Hline : nth_error lines1 0 = nth_error lines2 0)
      by (injection H; auto).
    rewrite Hline. reflexivity.
Qed.

(** X19: of what the bridge process prints, the adapter reads the first line
    and nothing more: two bridges that fail alike and whose outputs have the
    same first line (or both none) get the same answer to every tool call
    and every resource read. *)
Theorem X19_first_line_only (run1 run2 : list string -> Exn + list string) :
  (forall argv, first_line (run1 argv) = first_line (run2 argv)) ->
  (forall tool args t,
      CallTool cfg run1 JSON_parse tool args t
      = CallTool cfg run2 JSON_parse tool args t)
  /\ (forall u t,
        ReadResource cfg run1 JSON_parse u t = ReadResource cfg run2 JSON_parse u t).
Proof.
  intros Hsame. split.
  - intros tool args t. rewrite !CallTool_invoke, !invoke_run.
    destruct (dispatch tool args) as [e|call]; [reflexivity|].
    destruct (options_args cfg (fst call) (snd call)) as [argv|]; [|reflexivity].
    rewrite (bridge_result_first_line run1 run2 _ (Hsame _)). reflexivity.
  - intros u t. rewrite !ReadResource_run.
    destruct (match_uri u) as [e|m]; [reflexivity|]. cbn zeta.
    rewrite (bridge_result_first_line run1 run2 _ (Hsame _)). reflexivity.
Qed.

Variable PythonShell_run : list string -> Exn + list string.

Lemma resource_call_as_tool_call (m : ResourceMatch) :
  exists call,
    dispatch (fst (as_tool_call m)) (Some (snd (as_tool_call m))) = inr call
    /\ options_args cfg (fst call) (snd call) = Some (resource_argv cfg m).
Proof. destruct m; eexists; split; reflexivity. Qed.

(** X20: a resource read is a tool call in another form. The read of a
    matched URI spawns the very command line that get_market_data (for
    all-mids and an l2-book, with the decoded coin) or get_user_data (for a
    user state and open orders) spawns, and when the bridge result has no
    truthy error property both return the same JSON text. *)
Theorem X20_read_is_tool_call (u : string) (m : ResourceMatch) (t : Trace) :
  match_uri u = inr m ->
  let tool := fst (as_tool_call m) in
  let args := Some (snd (as_tool_call m)) in
  let argv := resource_argv cfg m in
  snd (ReadResource cfg PythonShell_run JSON_parse u t) = (t ++ [argv])%list
  /\ snd (CallTool cfg PythonShell_run JSON_parse tool args t) = (t ++ [argv])%list
  /\ (forall data error,
        bridge_result PythonShell_run JSON_parse argv = inr data ->
        read_error data = inr error -> truthy error = false ->
        fst (ReadResource cfg PythonShell_run JSON_parse u t)
        = inr [ {| contents_uri := u;
                   contents_mimeType := "application/json";
                   contents_text := JSON_stringify_2 data |} ]
        /\ fst (CallTool cfg PythonShell_run JSON_parse tool args t)
           = inr (text_result (JSON_stringify_2 data) None)).
Proof.
  intros Hm tool args argv. subst tool args argv.
  destruct (resource_call_as_tool_call m) as (call & Hcall & Hargv).
  split; [|split].
  - rewrite ReadResource_run, Hm. reflexivity.
  - rewrite (CallTool_spawn _ _ _ _ _ _ t Hcall), Hargv. reflexivity.
  - intros data error Hdata Herror Hfalsy. split.
    + rewrite ReadResource_run, Hm. cbn zeta. rewrite Hdata. reflexivity.
    + rewrite CallTool_invoke, invoke_run, Hcall, Hargv, Hdata, Herror, Hfalsy.
      reflexivity.
Qed.

End BridgeOutput.

Lemma X19_witness :
  CallTool sample_config sample_run sample_parse
    "get_market_data" (Some [("dataType", JStr "meta")]) []
  = CallTool sample_config
      (fun argv => match sample_run argv with
                   | inr lines => inr (lines ++ ["debug: done"])%list
                   | inl e => inl e
                   end)
      sample_parse "get_market_data" (Some [("dataType", JStr "meta")]) [].
Proof.
  apply (X19_first_line_only sample_config sample_parse sample_run
           (fun argv => match sample_run argv with
                        | inr lines => inr (lines ++ ["debug: done"])%list
                        | inl e => inl e
                        end)).
  intros argv. reflexivity.
Defined.

Lemma X20_witness :
  snd (ReadResource sample_config sample_run sample_parse
         "hyperliquid://market/l2-book/BTC" [])
  = [ ["market-data"; "--secret-key"; "0xkey"; "--network"; "mainnet";
       "--data-type"; "l2_snapshot"; "--coin"; "BTC"] ]
  /\ snd (CallTool sample_config sample_run sample_parse "get_market_data"
            (Some [("dataType", JStr "l2_snapshot"); ("coin", JStr "BTC")]) [])
     = [ ["market-data"; "--secret-key"; "0xkey"; "--network"; "mainnet";
          "--data-type"; "l2_snapshot"; "--coin"; "BTC"] ].
Proof.
  pose proof (X20_read_is_tool_call sample_config sample_parse sample_run
                "hyperliquid://market/l2-book/BTC" (L2Book "BTC") [] eq_refl) as H.
  exact (conj (proj1 H) (proj1 (proj2 H))).
Defined.
